(** * Assignment13/main_lt.py: the YOLOv3 Lightning module

    A shallow embedding of [main_lt.py]: the static architecture list
    [model_config], the sub-modules [CNNBlock], [ResidualBlock] and
    [ScalePrediction], and the [YOLOv3] class with its [forward] and its
    Lightning hooks.

    Tensors are kept abstract: the program is written once over an interface
    [Torch T] of the torch operations it calls, each of which may raise.  The
    shape rules of those operations (PyTorch's documented contracts) are stated
    as laws [TorchLaws]; [list Z], a tensor reduced to its shape, is an
    instance.  The utilities imported from [utils] and [loss] are opaque: a
    call to one is recorded as an event, its result is given by an oracle. *)

From Stdlib Require Import ZArith List Lia Floats.PrimFloat.
From stdpp Require Import base option list gmap strings pretty.

Set Warnings "-inexact-float,-register-all".
Local Open Scope Z_scope.

(** ** Python results: a value or a raised exception *)

Inductive exn : Type :=
| NameError (name : string)
| IndexError
| RuntimeError.

Inductive res (A : Type) : Type :=
| Ok (a : A)
| Raise (e : exn).
Arguments Ok {A} a.
Arguments Raise {A} e.

#[global] Instance res_ret : MRet res := fun A a => Ok a.
#[global] Instance res_bind : MBind res := fun A B k m =>
  match m with Ok a => k a | Raise e => Raise e end.
#[global] Instance res_fmap : FMap res := fun A B f m =>
  match m with Ok a => Ok (f a) | Raise e => Raise e end.

(** [for x in l: acc = body acc x], stopping at the first exception. *)
Fixpoint for_each {A B : Type} (body : A -> B -> res A) (l : list B) (acc : A) : res A :=
  match l with
  | [] => Ok acc
  | b :: l' => acc' ← body acc b; for_each body l' acc'
  end.

(** [None], the value of a function that ends without [return]. *)
Inductive NoneType : Type := PyNone.

(** Nested lists of numbers, the argument of [torch.tensor]. *)
Inductive pydata : Type :=
| PyFloat (f : float)
| PyInt (z : Z)
| PyList (l : list pydata).

(** ** Python lists *)

Module pylist.
(** [l[i]]: a negative index counts from the end; out of range raises. *)
Definition getitem {A : Type} (l : list A) (i : Z) : res A :=
  let j := if i <? 0 then i + Z.of_nat (length l) else i in
  if j <? 0 then Raise IndexError
  else match l !! Z.to_nat j with
       | Some a => Ok a
       | None => Raise IndexError
       end.

(** [l.append(a)] *)
Definition append {A : Type} (l : list A) (a : A) : list A := l ++ [a].

(** [l.pop()]: removes and returns the last element. *)
Definition pop {A : Type} (l : list A) : res (A * list A) :=
  match last l with
  | Some a => Ok (a, removelast l)
  | None => Raise IndexError
  end.

(** [range(n)] *)
Definition range (n : Z) : list Z := map Z.of_nat (seq 0 (Z.to_nat n)).
End pylist.

(** ** torch.nn modules used by the program, by their hyper-parameters *)

Module nn.
Record Conv2d : Type := mkConv2d {
  in_channels : Z;
  out_channels : Z;
  kernel_size : Z;
  stride : Z;
  padding : Z;
  bias : bool }.

(** [nn.Conv2d(in_channels, out_channels, bias=..., **kwargs)] with the
    keyword arguments the program passes; [stride] defaults to 1 and
    [padding] to 0. *)
Record kwargs : Type := mkKwargs {
  kw_kernel_size : Z;
  kw_stride : option Z;
  kw_padding : option Z }.

Definition Conv2d_init (in_channels out_channels : Z) (bias : bool) (kw : kwargs) : Conv2d :=
  {| in_channels := in_channels;
     out_channels := out_channels;
     kernel_size := kw_kernel_size kw;
     stride := default 1 (kw_stride kw);
     padding := default 0 (kw_padding kw);
     bias := bias |}.

Record BatchNorm2d : Type := mkBatchNorm2d { num_features : Z }.
Record LeakyReLU : Type := mkLeakyReLU { negative_slope : float }.
Record Upsample : Type := mkUpsample { scale_factor : Z }.
End nn.

(** ** The torch operations the program calls *)

Class Torch (T : Type) : Type := {
  shape : T -> list Z;
  conv2d : nn.Conv2d -> T -> res T;
  batch_norm : nn.BatchNorm2d -> T -> res T;
  leaky_relu : nn.LeakyReLU -> T -> res T;
  interpolate : nn.Upsample -> T -> res T;
  add : T -> T -> res T;
  cat : list T -> Z -> res T;
  reshape : T -> list Z -> res T;
  permute : T -> list Z -> res T;
  tensor : pydata -> T;
  unsqueeze : T -> Z -> res T;
  repeat_ : T -> list Z -> res T;
  mul : T -> T -> res T;
  select : T -> Z -> res T }.

(** ** Shape rules of the torch operations (PyTorch's documented contracts) *)

Module shapes.
Definition prod (s : list Z) : Z := fold_right Z.mul 1 s.

(** Output length of a convolution along one axis:
    [floor((h + 2*padding - kernel_size) / stride) + 1]. *)
Definition conv_out (m : nn.Conv2d) (h : Z) : Z :=
  (h + 2 * nn.padding m - nn.kernel_size m) / nn.stride m + 1.

Definition conv_axis_ok (m : nn.Conv2d) (h : Z) : bool :=
  (0 <? h) && (nn.kernel_size m <=? h + 2 * nn.padding m).

(** [nn.Conv2d]: input [(N, C_in, H, W)] or [(C_in, H, W)]; the channel
    count must be [in_channels] and the padded input at least as large as
    the kernel. *)
Definition conv2d (m : nn.Conv2d) (s : list Z) : res (list Z) :=
  match s with
  | [n; c; h; w] =>
      if (c =? nn.in_channels m) && conv_axis_ok m h && conv_axis_ok m w
      then Ok [n; nn.out_channels m; conv_out m h; conv_out m w]
      else Raise RuntimeError
  | [c; h; w] =>
      if (c =? nn.in_channels m) && conv_axis_ok m h && conv_axis_ok m w
      then Ok [nn.out_channels m; conv_out m h; conv_out m w]
      else Raise RuntimeError
  | _ => Raise RuntimeError
  end.

(** [nn.BatchNorm2d]: a 4-D input with [num_features] channels, unchanged
    in shape. *)
Definition batch_norm (m : nn.BatchNorm2d) (s : list Z) : res (list Z) :=
  match s with
  | [n; c; h; w] => if c =? nn.num_features m then Ok s else Raise RuntimeError
  | _ => Raise RuntimeError
  end.

(** [nn.LeakyReLU] is element-wise. *)
Definition leaky_relu (m : nn.LeakyReLU) (s : list Z) : res (list Z) := Ok s.

(** [nn.Upsample(scale_factor=k)] (nearest): a 3-D, 4-D or 5-D input whose
    dimensions after the first two are multiplied by [k]. *)
Definition interpolate (m : nn.Upsample) (s : list Z) : res (list Z) :=
  match s with
  | n :: c :: sp =>
      if bool_decide (1 <= length sp <= 3)%nat
      then Ok (n :: c :: map (fun d => d * nn.scale_factor m) sp)
      else Raise RuntimeError
  | _ => Raise RuntimeError
  end.

(** Broadcasting of two shapes, aligned at the last dimension. *)
Fixpoint broadcast_rev (a b : list Z) : res (list Z) :=
  match a, b with
  | [], _ => Ok b
  | _, [] => Ok a
  | x :: a', y :: b' =>
      if x =? y then (x ::.) <$> broadcast_rev a' b'
      else if x =? 1 then (y ::.) <$> broadcast_rev a' b'
      else if y =? 1 then (x ::.) <$> broadcast_rev a' b'
      else Raise RuntimeError
  end.

Definition add (a b : list Z) : res (list Z) :=
  @rev Z <$> broadcast_rev (rev a) (rev b).

(** [torch.cat(ts, dim)]: shapes of one rank that agree outside [dim];
    the sizes along [dim] add up. *)
Definition cat2 (d : nat) (a b : list Z) : res (list Z) :=
  match a !! d, b !! d with
  | Some x, Some y =>
      if bool_decide (length a = length b)
         && bool_decide (take d a = take d b)
         && bool_decide (drop (Datatypes.S d) a = drop (Datatypes.S d) b)
      then Ok (<[d := x + y]> a)
      else Raise RuntimeError
  | _, _ => Raise RuntimeError
  end.

Definition cat (ss : list (list Z)) (dim : Z) : res (list Z) :=
  match ss with
  | [] => Raise RuntimeError
  | s0 :: ss' =>
      let d := if dim <? 0 then dim + Z.of_nat (length s0) else dim in
      if (d <? 0) || (Z.of_nat (length s0) <=? d) then Raise IndexError
      else for_each (cat2 (Z.to_nat d)) ss' s0
  end.

(** [t.reshape(dims...)] with explicit, non-negative sizes: the number of
    elements must not change. *)
Definition reshape (s target : list Z) : res (list Z) :=
  if forallb (fun d => 0 <=? d) target && (prod s =? prod target)
  then Ok target else Raise RuntimeError.

(** [t.permute(dims...)]: [dims] must list every axis once. *)
Definition permute (s dims : list Z) : res (list Z) :=
  if bool_decide (Permutation dims (pylist.range (Z.of_nat (length s))))
  then Ok (map (fun d => default 0 (s !! Z.to_nat d)) dims)
  else Raise RuntimeError.

(** [torch.tensor(data)]: the lengths of the nested lists. *)
Fixpoint tensor (d : pydata) : list Z :=
  match d with
  | PyList l =>
      Z.of_nat (length l) :: match l with d0 :: _ => tensor d0 | [] => [] end
  | _ => []
  end.

(** [t.unsqueeze(dim)]: a new axis of size 1 at [dim]. *)
Definition unsqueeze (s : list Z) (dim : Z) : res (list Z) :=
  let d := if dim <? 0 then dim + Z.of_nat (length s) + 1 else dim in
  if (d <? 0) || (Z.of_nat (length s) <? d) then Raise IndexError
  else Ok (take (Z.to_nat d) s ++ 1 :: drop (Z.to_nat d) s).

(** [t.repeat(sizes...)]: at least one size per axis; missing leading axes
    count as 1. *)
Definition repeat_ (s sizes : list Z) : res (list Z) :=
  if bool_decide (length s <= length sizes)%nat && forallb (fun d => 0 <=? d) sizes
  then Ok (zip_with Z.mul (replicate (length sizes - length s) 1 ++ s) sizes)
  else Raise RuntimeError.

(** [t[i]] on the first axis. *)
Definition select (s : list Z) (i : Z) : res (list Z) :=
  match s with
  | n :: s' =>
      let j := if i <? 0 then i + n else i in
      if (j <? 0) || (n <=? j) then Raise IndexError else Ok s'
  | [] => Raise IndexError
  end.
End shapes.

(** ** Hooks: external calls are recorded in order; an exception stops the hook *)

Definition hook (E A : Type) : Type := list E -> res A * list E.

#[global] Instance hook_ret {E} : MRet (hook E) := fun A a w => (Ok a, w).
#[global] Instance hook_bind {E} : MBind (hook E) := fun A B k m w =>
  match m w with
  | (Ok a, w') => k a w'
  | (Raise e, w') => (Raise e, w')
  end.

Definition lift {E A : Type} (r : res A) : hook E A := fun w => (r, w).

(** ** class CNNBlock *)

Module CNNBlock.
Record t : Type := mk {
  conv : nn.Conv2d;
  bn : nn.BatchNorm2d;
  leaky : nn.LeakyReLU;
  use_bn_act : bool }.

Definition __init__ (in_channels out_channels : Z) (bn_act : bool) (kw : nn.kwargs) : t :=
  {| conv := nn.Conv2d_init in_channels out_channels (negb bn_act) kw;
     bn := nn.mkBatchNorm2d out_channels;
     leaky := nn.mkLeakyReLU 0.1;
     use_bn_act := bn_act |}.

Definition forward `{Torch T} (self : t) (x : T) : res T :=
  if use_bn_act self then
    a ← conv2d (conv self) x;
    b ← batch_norm (bn self) a;
    leaky_relu (leaky self) b
  else conv2d (conv self) x.
End CNNBlock.

(** [nn.Sequential] of CNN blocks: each block is applied to the output of the
    one before. *)
Module Sequential.
Definition t : Type := list CNNBlock.t.

Definition forward `{Torch T} (self : t) (x : T) : res T :=
  for_each (fun x block => CNNBlock.forward block x) self x.
End Sequential.

(** ** class ResidualBlock *)

Module ResidualBlock.
Record t : Type := mk {
  layers : list Sequential.t;
  use_residual : bool;
  num_repeats : Z }.

Definition __init__ (channels : Z) (use_residual : bool) (num_repeats : Z) : t :=
  {| layers :=
       foldl (fun layers repeat =>
                layers ++
                [[CNNBlock.__init__ channels (channels / 2) true
                    (nn.mkKwargs 1 None None);
                  CNNBlock.__init__ (channels / 2) channels true
                    (nn.mkKwargs 3 None (Some 1))]])
             [] (pylist.range num_repeats);
     use_residual := use_residual;
     num_repeats := num_repeats |}.

Definition forward `{Torch T} (self : t) (x : T) : res T :=
  for_each (fun x layer =>
              if use_residual self then
                y ← Sequential.forward layer x; add x y
              else Sequential.forward layer x)
           (layers self) x.
End ResidualBlock.

(** ** class ScalePrediction *)

Module ScalePrediction.
Record t : Type := mk {
  pred : Sequential.t;
  num_classes : Z }.

Definition __init__ (in_channels num_classes : Z) : t :=
  {| pred :=
       [CNNBlock.__init__ in_channels (2 * in_channels) true
          (nn.mkKwargs 3 None (Some 1));
        CNNBlock.__init__ (2 * in_channels) ((num_classes + 5) * 3) false
          (nn.mkKwargs 1 None None)];
     num_classes := num_classes |}.

Definition forward `{Torch T} (self : t) (x : T) : res T :=
  p ← Sequential.forward (pred self) x;
  d0 ← pylist.getitem (shape x) 0;
  d2 ← pylist.getitem (shape x) 2;
  d3 ← pylist.getitem (shape x) 3;
  r ← reshape p [d0; 3; num_classes self + 5; d2; d3];
  permute r [0; 1; 3; 4; 2].
End ScalePrediction.

(** ** The architecture list *)

(** An entry of [model_config]: a tuple [(filters, kernel_size, stride)], a
    list [["B", num_repeats]] or a string. *)
Inductive config_entry : Type :=
| Tup (filters kernel_size stride : Z)
| Lst (tag : string) (num_repeats : Z)
| Str (s : string).

Definition model_config : list config_entry :=
  [ Tup 32 3 1;
    Tup 64 3 2;
    Lst "B" 1;
    Tup 128 3 2;
    Lst "B" 2;
    Tup 256 3 2;
    Lst "B" 8;
    Tup 512 3 2;
    Lst "B" 8;
    Tup 1024 3 2;
    Lst "B" 4;
    Tup 512 1 1;
    Tup 1024 3 1;
    Str "S";
    Tup 256 1 1;
    Str "U";
    Tup 256 1 1;
    Tup 512 3 1;
    Str "S";
    Tup 128 1 1;
    Str "U";
    Tup 128 1 1;
    Tup 256 3 1;
    Str "S" ].

(** A member of [YOLOv3.layers], by its class. *)
Inductive Layer : Type :=
| LCNNBlock (m : CNNBlock.t)
| LResidualBlock (m : ResidualBlock.t)
| LScalePrediction (m : ScalePrediction.t)
| LUpsample (m : nn.Upsample).

Definition call_layer `{Torch T} (layer : Layer) (x : T) : res T :=
  match layer with
  | LCNNBlock m => CNNBlock.forward m x
  | LResidualBlock m => ResidualBlock.forward m x
  | LScalePrediction m => ScalePrediction.forward m x
  | LUpsample m => interpolate m x
  end.

(** ** The names bound in the module, and Python's built-in functions *)

Inductive pyobj : Type :=
| Imported (module_ : string) (name : option string)
| Defined (name : string).

(** The imports, [model_config] and the four classes, as the file binds them
    (the names every module has, such as [__name__], are left out). *)
Definition module_globals : gmap string pyobj :=
  list_to_map
    [ ("print_function", Imported "__future__" (Some "print_function"));
      ("pl", Imported "lightning.pytorch" None);
      ("torch", Imported "torch" None);
      ("nn", Imported "torch.nn" None);
      ("F", Imported "torch.nn.functional" None);
      ("optim", Imported "torch.optim" None);
      ("datasets", Imported "torchvision" (Some "datasets"));
      ("transforms", Imported "torchvision" (Some "transforms"));
      ("A", Imported "albumentations" None);
      ("np", Imported "numpy" None);
      ("ToTensorV2", Imported "albumentations.pytorch" (Some "ToTensorV2"));
      ("summary", Imported "torchsummary" (Some "summary"));
      ("tqdm", Imported "tqdm" (Some "tqdm"));
      ("LRFinder", Imported "torch_lr_finder" (Some "LRFinder"));
      ("OneCycleLR", Imported "torch.optim.lr_scheduler" (Some "OneCycleLR"));
      ("plt", Imported "matplotlib.pyplot" None);
      ("GradCAM", Imported "pytorch_grad_cam" (Some "GradCAM"));
      ("ClassifierOutputTarget",
       Imported "pytorch_grad_cam.utils.model_targets" (Some "ClassifierOutputTarget"));
      ("show_cam_on_image",
       Imported "pytorch_grad_cam.utils.image" (Some "show_cam_on_image"));
      ("YoloLoss", Imported "loss" (Some "YoloLoss"));
      ("mean_average_precision", Imported "utils" (Some "mean_average_precision"));
      ("cells_to_bboxes", Imported "utils" (Some "cells_to_bboxes"));
      ("get_evaluation_bboxes", Imported "utils" (Some "get_evaluation_bboxes"));
      ("save_checkpoint", Imported "utils" (Some "save_checkpoint"));
      ("load_checkpoint", Imported "utils" (Some "load_checkpoint"));
      ("check_class_accuracy", Imported "utils" (Some "check_class_accuracy"));
      ("get_loaders", Imported "utils" (Some "get_loaders"));
      ("plot_couple_examples", Imported "utils" (Some "plot_couple_examples"));
      ("model_config", Defined "model_config");
      ("CNNBlock", Defined "CNNBlock");
      ("ResidualBlock", Defined "ResidualBlock");
      ("ScalePrediction", Defined "ScalePrediction");
      ("YOLOv3", Defined "YOLOv3") ].

(** Python 3's built-in functions.  The built-in constants and exception
    classes, which the program does not read through a free name, are left out. *)
Definition builtins : list string :=
  [ "abs"; "aiter"; "all"; "anext"; "any"; "ascii"; "bin"; "bool";
    "breakpoint"; "bytearray"; "bytes"; "callable"; "chr"; "classmethod";
    "compile"; "complex"; "delattr"; "dict"; "dir"; "divmod"; "enumerate";
    "eval"; "exec"; "filter"; "float"; "format"; "frozenset"; "getattr";
    "globals"; "hasattr"; "hash"; "help"; "hex"; "id"; "input"; "int";
    "isinstance"; "issubclass"; "iter"; "len"; "list"; "locals"; "map";
    "max"; "memoryview"; "min"; "next"; "object"; "oct"; "open"; "ord";
    "pow"; "print"; "property"; "range"; "repr"; "reversed"; "round"; "set";
    "setattr"; "slice"; "sorted"; "staticmethod"; "str"; "sum"; "super";
    "tuple"; "type"; "vars"; "zip"; "__import__" ].

(** Reading a name that is not local to the function: the module's globals,
    then the built-ins, else [NameError]. *)
Definition load_global (name : string) : res pyobj :=
  match module_globals !! name with
  | Some o => Ok o
  | None =>
      if bool_decide (name ∈ builtins) then Ok (Imported "builtins" (Some name))
      else Raise (NameError name)
  end.

(** ** The collaborators that are not in this file *)

(** The attributes of the [config] object that the program reads. *)
Module Config.
Record t : Type := mk {
  ANCHORS : pydata;
  S : pydata;
  SAVE_MODEL : bool;
  CONF_THRESHOLD : float;
  NMS_IOU_THRESH : float;
  MAP_IOU_THRESH : float;
  NUM_CLASSES : Z }.
End Config.

(** [loss.YoloLoss]: an object with no constructor argument. *)
Inductive YoloLoss : Type := YoloLoss_init.

(** [torch.optim.Adam] and [torch.optim.lr_scheduler.OneCycleLR], by the
    arguments they are built from. *)
Module optim.
Record Adam (P : Type) : Type := mkAdam {
  params : P;
  lr : float;
  weight_decay : float }.
Arguments mkAdam {P}.
Arguments params {P}.
Arguments lr {P}.
Arguments weight_decay {P}.

Record OneCycleLR (P : Type) : Type := mkOneCycleLR {
  optimizer : Adam P;
  max_lr : float;
  steps_per_epoch : Z;
  epochs : Z;
  div_factor : Z;
  pct_start : float }.
Arguments mkOneCycleLR {P}.
Arguments optimizer {P}.
Arguments max_lr {P}.
Arguments steps_per_epoch {P}.
Arguments epochs {P}.
Arguments div_factor {P}.
Arguments pct_start {P}.
End optim.

(** ** class YOLOv3 *)

Module YOLOv3.
Section YOLOv3.
Context {T : Type} `{Torch T} {Loader Boxes : Type}.

Record t : Type := mk {
  num_classes : Z;
  in_channels : Z;
  layers : list Layer;
  config : Config.t;
  scaled_anchors : T;
  loss_fn : YoloLoss;
  train_loader : Loader;
  test_loader : Loader;
  (** maintained by the trainer *)
  current_epoch : Z }.

(** A value given to [self.log]. *)
Inductive metric : Type :=
| MTensor (v : T)
| MFloat (v : float).

(** The calls that leave the file, with their arguments.  The optimizer
    argument of [save_checkpoint] ([self.optimizers()]) and the [logger]
    argument of [check_class_accuracy] ([self.log]) belong to the trainer
    and are not recorded. *)
Inductive event : Type :=
| save_checkpoint (model : t) (filename : string)
| check_class_accuracy (model : t) (loader : Loader) (threshold : float)
| get_evaluation_bboxes (loader : Loader) (model : t)
    (iou_threshold : float) (anchors : pydata) (threshold : float)
| mean_average_precision (pred_boxes true_boxes : Boxes)
    (iou_threshold : float) (box_format : string) (num_classes : Z)
| plot_couple_examples (model : t) (loader : Loader)
    (thresh iou_thresh : float) (anchors : T)
| print (v : T)
| log (name : string) (value : metric) (prog_bar on_step on_epoch : bool).

(** What the collaborators return: a function of the calls made so far.  A
    call to [utils], [print] or [self.log] is taken to return. *)
Class Extern : Type := {
  len : Loader -> Z;
  call : pyobj -> list T -> res T;
  get_evaluation_bboxes_ret : list event -> Boxes * Boxes;
  mean_average_precision_ret : list event -> T;
  item : T -> float }.

Context `{Extern}.

Definition emit (e : event) : hook event NoneType :=
  fun w => (Ok PyNone, w ++ [e]).

Definition emit_ret {A : Type} (e : event) (ret : list event -> A) : hook event A :=
  fun w => (Ok (ret (w ++ [e])), w ++ [e]).

Definition create_conv_layers_body (num_classes : Z)
    (st : list Layer * Z) (module : config_entry) : list Layer * Z :=
  let '(layers, in_channels) := st in
  match module with
  | Tup out_channels kernel_size stride =>
      (layers ++
       [LCNNBlock
          (CNNBlock.__init__ in_channels out_channels true
             (nn.mkKwargs kernel_size (Some stride)
                (Some (if kernel_size =? 3 then 1 else 0))))],
       out_channels)
  | Lst _ num_repeats =>
      (layers ++
       [LResidualBlock (ResidualBlock.__init__ in_channels true num_repeats)],
       in_channels)
  | Str module =>
      if String.eqb module "S" then
        (layers ++
         [LResidualBlock (ResidualBlock.__init__ in_channels false 1);
          LCNNBlock
            (CNNBlock.__init__ in_channels (in_channels / 2) true
               (nn.mkKwargs 1 None None));
          LScalePrediction
            (ScalePrediction.__init__ (in_channels / 2) num_classes)],
         in_channels / 2)
      else if String.eqb module "U" then
        (layers ++ [LUpsample (nn.mkUpsample 2)], in_channels * 3)
      else (layers, in_channels)
  end.

Definition _create_conv_layers (in_channels num_classes : Z) : list Layer :=
  fst (foldl (create_conv_layers_body num_classes) ([], in_channels) model_config).

(** [torch.tensor(ANCHORS) * torch.tensor(S).unsqueeze(1).unsqueeze(1).repeat(1, 3, 2)] *)
Definition scale_anchors (c : Config.t) : res T :=
  s1 ← unsqueeze (tensor (Config.S c)) 1;
  s2 ← unsqueeze s1 1;
  s3 ← repeat_ s2 [1; 3; 2];
  mul (tensor (Config.ANCHORS c)) s3.

Definition __init__ (config : Config.t) (train_loader test_loader : Loader)
    (in_channels num_classes : Z) : res t :=
  let layers := _create_conv_layers in_channels num_classes in
  scaled_anchors ← scale_anchors config;
  Ok {| num_classes := num_classes;
        in_channels := in_channels;
        layers := layers;
        config := config;
        scaled_anchors := scaled_anchors;
        loss_fn := YoloLoss_init;
        train_loader := train_loader;
        test_loader := test_loader;
        current_epoch := 0 |}.

(** The local variables of [forward]. *)
Record locals : Type := mkLocals {
  x : T;
  outputs : list T;
  route_connections : list T }.

(** One iteration of the loop of [forward]. *)
Definition forward_body (st : locals) (layer : Layer) : res locals :=
  match layer with
  | LScalePrediction _ =>
      o ← call_layer layer (x st);
      Ok (mkLocals (x st) (pylist.append (outputs st) o) (route_connections st))
  | _ =>
      x' ← call_layer layer (x st);
      match layer with
      | LResidualBlock m =>
          if ResidualBlock.num_repeats m =? 8 then
            Ok (mkLocals x' (outputs st) (pylist.append (route_connections st) x'))
          else Ok (mkLocals x' (outputs st) (route_connections st))
      | LUpsample _ =>
          r ← pylist.getitem (route_connections st) (-1);
          x'' ← cat [x'; r] 1;
          '(_, route_connections') ← pylist.pop (route_connections st);
          Ok (mkLocals x'' (outputs st) route_connections')
      | _ => Ok (mkLocals x' (outputs st) (route_connections st))
      end
  end.

(** The loop of [forward] over a list of layers, from given locals. *)
Definition forward_loop (layers : list Layer) (st : locals) : res locals :=
  for_each forward_body layers st.

Definition forward (self : t) (x : T) : res (list T) :=
  outputs <$> forward_loop (layers self) (mkLocals x [] []).

(** [self.parameters()]: the parameters of the registered sub-modules,
    named by the modules that own them. *)
Definition parameters (self : t) : list Layer := layers self.

Definition configure_optimizers (self : t)
    : list (optim.Adam (list Layer)) * list (optim.OneCycleLR (list Layer)) :=
  let optimizer := optim.mkAdam (parameters self) 1e-05 1e-4 in
  let scheduler :=
    optim.mkOneCycleLR optimizer 1e-03 (len (train_loader self)) 40 100 (5 / 40) in
  ([optimizer], [scheduler]).

Definition training_step (self : t) (batch : T * list T) (batch_idx : Z)
    : hook event NoneType :=
  let '(x, y) := batch in
  y0 ← lift (pylist.getitem y 0);
  y1 ← lift (pylist.getitem y 1);
  y2 ← lift (pylist.getitem y 2);
  out ← lift (forward self x);
  f0 ← lift (load_global "loss_fn");
  o0 ← lift (pylist.getitem out 0);
  a0 ← lift (select (scaled_anchors self) 0);
  l0 ← lift (call f0 [o0; y0; a0]);
  f1 ← lift (load_global "loss_fn");
  o1 ← lift (pylist.getitem out 1);
  a1 ← lift (select (scaled_anchors self) 1);
  l1 ← lift (call f1 [o1; y1; a1]);
  l01 ← lift (add l0 l1);
  f2 ← lift (load_global "loss_fn");
  o2 ← lift (pylist.getitem out 2);
  a2 ← lift (select (scaled_anchors self) 2);
  l2 ← lift (call f2 [o2; y2; a2]);
  train_loss ← lift (add l01 l2);
  emit (log "train_loss" (MTensor train_loss) true true true).

Definition validation_step (self : t) (batch : T * list T) (batch_idx : Z)
    : hook event NoneType :=
  mret PyNone.

Definition on_epoch_start (self : t) : hook event NoneType :=
  emit (plot_couple_examples self (test_loader self) 0.6 0.5 (scaled_anchors self)).

Definition training_epoch_end (self : t) : hook event NoneType :=
  let current_epoch := current_epoch self in
  _ ← (if Config.SAVE_MODEL (config self) then
         emit (save_checkpoint self
                 ("checkpoint_" +:+ pretty current_epoch +:+ ".pth.tar"))
       else mret PyNone);
  emit (check_class_accuracy self (train_loader self)
          (Config.CONF_THRESHOLD (config self))).

Definition validation_epoch_end (self : t) : hook event NoneType :=
  let current_epoch := current_epoch self in
  if (current_epoch `mod` 10 =? 0) || bool_decide (current_epoch ∈ [1; 2; 3]) then
    _ ← emit (check_class_accuracy self (test_loader self)
                (Config.CONF_THRESHOLD (config self)));
    '(pred_boxes, true_boxes) ←
      emit_ret (get_evaluation_bboxes (test_loader self) self
                  (Config.NMS_IOU_THRESH (config self))
                  (Config.ANCHORS (config self))
                  (Config.CONF_THRESHOLD (config self)))
               get_evaluation_bboxes_ret;
    mapval ←
      emit_ret (mean_average_precision pred_boxes true_boxes
                  (Config.MAP_IOU_THRESH (config self)) "midpoint"
                  (Config.NUM_CLASSES (config self)))
               mean_average_precision_ret;
    _ ← emit (print mapval);
    emit (log "MAP" (MFloat (item mapval)) true true true)
  else mret PyNone.
End YOLOv3.

Arguments t T Loader : clear implicits.
Arguments event T Loader Boxes : clear implicits.
Arguments Extern T Loader Boxes : clear implicits.
End YOLOv3.

(** ** Tensors reduced to their shapes *)

#[global] Instance shape_torch : Torch (list Z) := {|
  shape := id;
  conv2d := shapes.conv2d;
  batch_norm := shapes.batch_norm;
  leaky_relu := shapes.leaky_relu;
  interpolate := shapes.interpolate;
  add := shapes.add;
  cat := shapes.cat;
  reshape := shapes.reshape;
  permute := shapes.permute;
  tensor := shapes.tensor;
  unsqueeze := shapes.unsqueeze;
  repeat_ := shapes.repeat_;
  mul := shapes.add;
  select := shapes.select |}.

(** An implementation of [Torch] follows the shape rules when [shape] commutes
    with every operation of [forward], exceptions included. *)
Class TorchLaws (T : Type) `{Torch T} : Prop := {
  shape_conv2d m x : shape <$> conv2d m x = shapes.conv2d m (shape x);
  shape_batch_norm m x : shape <$> batch_norm m x = shapes.batch_norm m (shape x);
  shape_leaky_relu m x : shape <$> leaky_relu m x = shapes.leaky_relu m (shape x);
  shape_interpolate m x : shape <$> interpolate m x = shapes.interpolate m (shape x);
  shape_add x y : shape <$> add x y = shapes.add (shape x) (shape y);
  shape_cat xs dim : shape <$> cat xs dim = shapes.cat (shape <$> xs) dim;
  shape_reshape x s : shape <$> reshape x s = shapes.reshape (shape x) s;
  shape_permute x dims : shape <$> permute x dims = shapes.permute (shape x) dims }.

(** A concrete setting for examples: shapes as tensors, loaders named by a
    string, no boxes, collaborators that return empty tensors. *)
Module Example.
Definition config : Config.t :=
  {| Config.ANCHORS :=
       PyList
         [PyList [PyList [PyFloat 0.28; PyFloat 0.22];
                  PyList [PyFloat 0.38; PyFloat 0.48];
                  PyList [PyFloat 0.9; PyFloat 0.78]];
          PyList [PyList [PyFloat 0.07; PyFloat 0.15];
                  PyList [PyFloat 0.15; PyFloat 0.11];
                  PyList [PyFloat 0.14; PyFloat 0.29]];
          PyList [PyList [PyFloat 0.02; PyFloat 0.03];
                  PyList [PyFloat 0.04; PyFloat 0.07];
                  PyList [PyFloat 0.08; PyFloat 0.06]]];
     Config.S := PyList [PyInt 13; PyInt 26; PyInt 52];
     Config.SAVE_MODEL := true;
     Config.CONF_THRESHOLD := 0.05;
     Config.NMS_IOU_THRESH := 0.45;
     Config.MAP_IOU_THRESH := 0.5;
     Config.NUM_CLASSES := 20 |}.

#[global] Instance extern : YOLOv3.Extern (list Z) string unit := {|
  YOLOv3.len := fun _ => 100;
  YOLOv3.call := fun _ _ => Ok [];
  YOLOv3.get_evaluation_bboxes_ret := fun _ => (tt, tt);
  YOLOv3.mean_average_precision_ret := fun _ => [];
  YOLOv3.item := fun _ => 0%float |}.

Definition model (current_epoch : Z) (SAVE_MODEL : bool) : YOLOv3.t (list Z) string :=
  {| YOLOv3.num_classes := 20;
     YOLOv3.in_channels := 3;
     YOLOv3.layers := YOLOv3._create_conv_layers 3 20;
     YOLOv3.config :=
       {| Config.ANCHORS := Config.ANCHORS config;
          Config.S := Config.S config;
          Config.SAVE_MODEL := SAVE_MODEL;
          Config.CONF_THRESHOLD := Config.CONF_THRESHOLD config;
          Config.NMS_IOU_THRESH := Config.NMS_IOU_THRESH config;
          Config.MAP_IOU_THRESH := Config.MAP_IOU_THRESH config;
          Config.NUM_CLASSES := Config.NUM_CLASSES config |};
     YOLOv3.scaled_anchors := [3; 3; 2];
     YOLOv3.loss_fn := YoloLoss_init;
     YOLOv3.train_loader := "train";
     YOLOv3.test_loader := "test";
     YOLOv3.current_epoch := current_epoch |}.
End Example.

(** ** Vocabulary of the statements *)

(** The locals of [forward] with every tensor reduced to its shape. *)
Definition locals_shape `{Torch T} (st : YOLOv3.locals (T:=T)) : YOLOv3.locals (T:=list Z) :=
  YOLOv3.mkLocals (shape (YOLOv3.x st))
    (shape <$> YOLOv3.outputs st) (shape <$> YOLOv3.route_connections st).

(** The layers after which [forward] stores a route connection. *)
Definition stores_route (layer : Layer) : bool :=
  match layer with
  | LResidualBlock m => ResidualBlock.num_repeats m =? 8
  | _ => false
  end.

Definition is_upsample (layer : Layer) : bool :=
  match layer with LUpsample _ => true | _ => false end.

(** The prediction heads among the layers, in the order of the layers. *)
Definition scale_heads (layers : list Layer) : list ScalePrediction.t :=
  omap (fun layer => match layer with LScalePrediction m => Some m | _ => None end) layers.

(** The number of stored route connections after the layers, from [d] stored
    ones; [None] when an [nn.Upsample] comes with nothing stored. *)
Fixpoint route_depth (layers : list Layer) (d : nat) : option nat :=
  match layers with
  | [] => Some d
  | layer :: layers' =>
      if stores_route layer then route_depth layers' (Datatypes.S d)
      else if is_upsample layer then
        match d with
        | O => None
        | Datatypes.S d' => route_depth layers' d'
        end
      else route_depth layers' d
  end.

(** A tensor that some residual block with [num_repeats == 8] returned. *)
Definition route_output `{Torch T} (r : T) : Prop :=
  exists m i, ResidualBlock.num_repeats m = 8 /\ ResidualBlock.forward m i = Ok r.

(** A tensor that the head [m] returned. *)
Definition head_output `{Torch T} (m : ScalePrediction.t) (o : T) : Prop :=
  exists i, ScalePrediction.forward m i = Ok o.

(** The two blocks of one repeat of [ResidualBlock(channels)]. *)
Definition residual_pair (channels : Z) : Sequential.t :=
  [CNNBlock.__init__ channels (channels / 2) true (nn.mkKwargs 1 None None);
   CNNBlock.__init__ (channels / 2) channels true (nn.mkKwargs 3 None (Some 1))].

(** A convolution axis of length [h] is accepted and comes out with length [h']. *)
Definition conv_dim (k s p h h' : Z) : Prop :=
  0 < h /\ k <= h + 2 * p /\ h' = (h + 2 * p - k) / s + 1.

(** The length that a stride-2 convolution with kernel 3 and padding 1 gives
    to an axis of length [h]. *)
Definition halve (h : Z) : Z := (h + 2 * 1 - 3) / 2 + 1.

(** The heights and widths that the layers of [model_config] accept: positive
    and at most 7 below a multiple of 32. *)
Definition fits (h : Z) : Prop :=
  0 < h /\ (h `mod` 32 = 0 \/ 25 <= h `mod` 32).

(** The number of layers that [_create_conv_layers] appends for an entry. *)
Definition entry_layers (e : config_entry) : nat :=
  match e with
  | Tup _ _ _ => 1
  | Lst _ _ => 1
  | Str s => if String.eqb s "S" then 3 else if String.eqb s "U" then 1 else 0
  end.

Definition is_scale_entry (e : config_entry) : bool :=
  match e with Str s => String.eqb s "S" | _ => false end.

Definition is_upsample_entry (e : config_entry) : bool :=
  match e with Str s => negb (String.eqb s "S") && String.eqb s "U" | _ => false end.

(** The exceptions of a shape error. *)
Definition shape_error (e : exn) : Prop := e = RuntimeError.

(** ** Results *)

Lemma fmap_Ok_inv {A B : Type} (f : A -> B) (r : res A) (b : B) :
  f <$> r = Ok b -> exists a, r = Ok a /\ f a = b.
Proof.
  destruct r as [a|e]; cbn; intros Hr; [|discriminate].
  exists a. split; [reflexivity|congruence].
Qed.

Lemma bind_Ok_inv {A B : Type} (m : res A) (k : A -> res B) (b : B) :
  m ≫= k = Ok b -> exists a, m = Ok a /\ k a = Ok b.
Proof.
  destruct m as [a|e]; cbn; intros Hr; [|discriminate].
  exists a. split; [reflexivity|assumption].
Qed.

(** [f] commutes with a bind when it commutes with both parts. *)
Lemma fmap_bind_commute {A A' B B' : Type} (f : A -> A') (g : B -> B')
    (m : res A) (m' : res A') (k : A -> res B) (k' : A' -> res B') :
  f <$> m = m' ->
  (forall a, g <$> k a = k' (f a)) ->
  g <$> (m ≫= k) = m' ≫= k'.
Proof.
  intros <- Hk. destruct m as [a|e]; cbn; [apply Hk|reflexivity].
Qed.

(** The same for a bind whose first part is shared. *)
Lemma fmap_bind_same {A B B' : Type} (g : B -> B')
    (m : res A) (k : A -> res B) (k' : A -> res B') :
  (forall a, g <$> k a = k' a) ->
  g <$> (m ≫= k) = m ≫= k'.
Proof.
  intros Hk. destruct m as [a|e]; cbn; [apply Hk|reflexivity].
Qed.

Lemma for_each_app {A B : Type} (body : A -> B -> res A) (l1 l2 : list B) (acc : A) :
  for_each body (l1 ++ l2) acc = for_each body l1 acc ≫= for_each body l2.
Proof.
  revert acc. induction l1 as [|b l1 IH]; intros acc; cbn; [reflexivity|].
  destruct (body acc b) as [acc'|e]; cbn; [apply IH|reflexivity].
Qed.

Lemma for_each_commute {A A' B : Type} (f : A -> A')
    (body : A -> B -> res A) (body' : A' -> B -> res A') (l : list B) (acc : A) :
  (forall a b, f <$> body a b = body' (f a) b) ->
  f <$> for_each body l acc = for_each body' l (f acc).
Proof.
  intros Hb. revert acc. induction l as [|b l IH]; intros acc; cbn; [reflexivity|].
  apply fmap_bind_commute with (f := f); [apply Hb|apply IH].
Qed.

(** ** Python lists *)

Lemma getitem_last {A : Type} (l : list A) (a : A) :
  pylist.getitem (l ++ [a]) (-1) = Ok a.
Proof.
  unfold pylist.getitem. cbn [Z.ltb Z.compare].
  rewrite length_app, Nat2Z.inj_add. cbn [length Z.of_nat].
  destruct (Z.ltb_spec (-1 + (Z.of_nat (length l) + Z.of_nat 1)) 0) as [Hlt|_]; [lia|].
  replace (Z.to_nat (-1 + (Z.of_nat (length l) + Z.of_nat 1))) with (length l) by lia.
  rewrite lookup_app_r, Nat.sub_diag by lia. reflexivity.
Qed.

Lemma getitem_nil {A : Type} (i : Z) : pylist.getitem (@nil A) i = Raise IndexError.
Proof.
  unfold pylist.getitem. cbn [length Z.of_nat]. rewrite Z.add_0_r.
  destruct (i <? 0) eqn:Hi; rewrite ?Hi; [reflexivity|].
  rewrite lookup_nil. reflexivity.
Qed.

Lemma pop_last {A : Type} (l : list A) (a : A) :
  pylist.pop (l ++ [a]) = Ok (a, l).
Proof.
  unfold pylist.pop. rewrite last_snoc, removelast_last. reflexivity.
Qed.

Lemma range_length (n : Z) : length (pylist.range n) = Z.to_nat n.
Proof. unfold pylist.range. rewrite length_map, length_seq. reflexivity. Qed.

(** ** [shape] commutes with the forward passes *)

Section shape_commutes.
Context `{TorchLaws T}.

Lemma CNNBlock_forward_shape (b : CNNBlock.t) (x : T) :
  shape <$> CNNBlock.forward b x = CNNBlock.forward b (shape x).
Proof.
  unfold CNNBlock.forward. destruct (CNNBlock.use_bn_act b).
  - apply fmap_bind_commute with (f := shape); [apply shape_conv2d|].
    intros a. apply fmap_bind_commute with (f := shape); [apply shape_batch_norm|].
    intros c. apply shape_leaky_relu.
  - apply shape_conv2d.
Qed.

Lemma Sequential_forward_shape (s : Sequential.t) (x : T) :
  shape <$> Sequential.forward s x = Sequential.forward s (shape x).
Proof.
  unfold Sequential.forward. apply for_each_commute.
  intros a b. apply CNNBlock_forward_shape.
Qed.

Lemma ResidualBlock_forward_shape (m : ResidualBlock.t) (x : T) :
  shape <$> ResidualBlock.forward m x = ResidualBlock.forward m (shape x).
Proof.
  unfold ResidualBlock.forward. apply for_each_commute.
  intros a s. destruct (ResidualBlock.use_residual m).
  - apply fmap_bind_commute with (f := shape); [apply Sequential_forward_shape|].
    intros y. apply shape_add.
  - apply Sequential_forward_shape.
Qed.

Lemma ScalePrediction_forward_shape (m : ScalePrediction.t) (x : T) :
  shape <$> ScalePrediction.forward m x = ScalePrediction.forward m (shape x).
Proof.
  unfold ScalePrediction.forward.
  apply fmap_bind_commute with (f := shape); [apply Sequential_forward_shape|].
  intros p. change (shape (shape x)) with (shape x).
  apply fmap_bind_same; intros d0.
  apply fmap_bind_same; intros d2.
  apply fmap_bind_same; intros d3.
  apply fmap_bind_commute with (f := shape); [apply shape_reshape|].
  intros r. apply shape_permute.
Qed.

Lemma call_layer_shape (layer : Layer) (x : T) :
  shape <$> call_layer layer x = call_layer layer (shape x).
Proof.
  destruct layer as [m|m|m|m]; cbn [call_layer].
  - apply CNNBlock_forward_shape.
  - apply ResidualBlock_forward_shape.
  - apply ScalePrediction_forward_shape.
  - apply shape_interpolate.
Qed.

Lemma getitem_fmap {A B : Type} (f : A -> B) (l : list A) (i : Z) :
  f <$> pylist.getitem l i = pylist.getitem (f <$> l) i.
Proof.
  unfold pylist.getitem. rewrite length_fmap.
  destruct (_ <? 0); [reflexivity|].
  rewrite list_lookup_fmap. destruct (l !! _); reflexivity.
Qed.

Lemma pop_fmap {A B : Type} (f : A -> B) (l : list A) :
  prod_map f (fmap (M:=list) f) <$> pylist.pop l = pylist.pop (f <$> l).
Proof.
  destruct l as [|a l] using rev_ind; [reflexivity|].
  rewrite fmap_app. cbn [fmap list_fmap]. rewrite !pop_last. reflexivity.
Qed.

Lemma forward_body_shape (st : YOLOv3.locals) (layer : Layer) :
  locals_shape <$> YOLOv3.forward_body st layer
  = YOLOv3.forward_body (locals_shape st) layer.
Proof.
  destruct st as [x outs rc].
  destruct layer as [m|m|m|m]; cbn [YOLOv3.forward_body YOLOv3.x YOLOv3.outputs
    YOLOv3.route_connections locals_shape].
  - apply fmap_bind_commute with (f := shape); [apply call_layer_shape|].
    intros x'. reflexivity.
  - apply fmap_bind_commute with (f := shape); [apply call_layer_shape|].
    intros x'. destruct (_ =? 8); cbn; unfold locals_shape, pylist.append; cbn;
      rewrite ?fmap_app; reflexivity.
  - apply fmap_bind_commute with (f := shape); [apply call_layer_shape|].
    intros o. cbn. unfold locals_shape, pylist.append. cbn.
    rewrite fmap_app. reflexivity.
  - apply fmap_bind_commute with (f := shape); [apply call_layer_shape|].
    intros x'.
    apply fmap_bind_commute with (f := shape); [apply getitem_fmap|].
    intros r.
    apply fmap_bind_commute with (f := shape); [apply (shape_cat [x'; r])|].
    intros x''.
    apply fmap_bind_commute with (f := prod_map shape (fmap (M:=list) shape));
      [apply pop_fmap|].
    intros [a rc']. reflexivity.
Qed.

Lemma forward_loop_shape (layers : list Layer) (st : YOLOv3.locals) :
  locals_shape <$> YOLOv3.forward_loop layers st
  = YOLOv3.forward_loop layers (locals_shape st).
Proof.
  unfold YOLOv3.forward_loop. apply for_each_commute. apply forward_body_shape.
Qed.

(** A run on shapes that returns decides the run on tensors. *)
Lemma forward_loop_of_shapes (layers : list Layer) (st : YOLOv3.locals)
    (s' : YOLOv3.locals (T:=list Z)) :
  YOLOv3.forward_loop layers (locals_shape st) = Ok s' ->
  exists st', YOLOv3.forward_loop layers st = Ok st' /\ locals_shape st' = s'.
Proof.
  intros Hs. apply fmap_Ok_inv. rewrite forward_loop_shape. exact Hs.
Qed.

End shape_commutes.

(** ** The sub-modules on shapes *)

Lemma conv_dim_k1 (h : Z) : 0 < h -> conv_dim 1 1 0 h h.
Proof.
  intros Hh. unfold conv_dim. rewrite Z.div_1_r. lia.
Qed.

Lemma conv_dim_k3_s1 (h : Z) : 0 < h -> conv_dim 3 1 1 h h.
Proof.
  intros Hh. unfold conv_dim. rewrite Z.div_1_r. lia.
Qed.

Lemma conv_dim_k3_s2 (h : Z) : 0 < h -> conv_dim 3 2 1 (2 * h) h.
Proof.
  intros Hh. unfold conv_dim. repeat split; [lia|lia|].
  replace (2 * h + 2 * 1 - 3) with (1 + (h - 1) * 2) by lia.
  rewrite Z.div_add by lia. change (1 / 2) with 0. lia.
Qed.

Lemma conv_axis_ok_true (m : nn.Conv2d) (h h' : Z) :
  conv_dim (nn.kernel_size m) (nn.stride m) (nn.padding m) h h' ->
  shapes.conv_axis_ok m h = true /\ shapes.conv_out m h = h'.
Proof.
  intros (Hh & Hk & ->). unfold shapes.conv_axis_ok, shapes.conv_out. split; [|reflexivity].
  apply andb_true_intro. split; [apply Z.ltb_lt|apply Z.leb_le]; assumption.
Qed.

Lemma CNNBlock_forward_dims (cin cout : Z) (bn_act : bool) (kw : nn.kwargs)
    (n h w h' w' : Z) :
  let k := nn.kw_kernel_size kw in
  let s := default 1 (nn.kw_stride kw) in
  let p := default 0 (nn.kw_padding kw) in
  conv_dim k s p h h' ->
  conv_dim k s p w w' ->
  CNNBlock.forward (CNNBlock.__init__ cin cout bn_act kw) [n; cin; h; w]
  = Ok [n; cout; h'; w'].
Proof.
  intros k s p Hh Hw.
  apply (conv_axis_ok_true (nn.Conv2d_init cin cout (negb bn_act) kw)) in Hh as [Hh1 Hh2].
  apply (conv_axis_ok_true (nn.Conv2d_init cin cout (negb bn_act) kw)) in Hw as [Hw1 Hw2].
  assert (Hconv : shapes.conv2d (nn.Conv2d_init cin cout (negb bn_act) kw) [n; cin; h; w]
                  = Ok [n; cout; h'; w']).
  { unfold shapes.conv2d. rewrite Hh1, Hw1, Hh2, Hw2.
    cbn [nn.in_channels nn.out_channels nn.Conv2d_init]. rewrite Z.eqb_refl. reflexivity. }
  unfold CNNBlock.forward, CNNBlock.__init__.
  cbn [CNNBlock.use_bn_act CNNBlock.conv CNNBlock.bn CNNBlock.leaky conv2d batch_norm
       leaky_relu shape_torch].
  rewrite Hconv. destruct bn_act; [|reflexivity].
  cbn [mbind res_bind shapes.batch_norm nn.num_features]. rewrite Z.eqb_refl. reflexivity.
Qed.

Lemma broadcast_rev_same (a : list Z) : shapes.broadcast_rev a a = Ok a.
Proof.
  induction a as [|d a IH]; cbn; [reflexivity|].
  rewrite Z.eqb_refl, IH. reflexivity.
Qed.

Lemma add_same (a : list Z) : shapes.add a a = Ok a.
Proof.
  unfold shapes.add. rewrite broadcast_rev_same. cbn. rewrite rev_involutive. reflexivity.
Qed.

Lemma residual_pair_forward (c n h w : Z) :
  0 < h -> 0 < w ->
  Sequential.forward (residual_pair c) [n; c; h; w] = Ok [n; c; h; w].
Proof.
  intros Hh Hw. unfold Sequential.forward, residual_pair. cbn [for_each].
  rewrite (CNNBlock_forward_dims c (c / 2) true _ n h w h w)
    by (apply conv_dim_k1; assumption).
  cbn [mbind res_bind].
  rewrite (CNNBlock_forward_dims (c / 2) c true _ n h w h w)
    by (apply conv_dim_k3_s1; assumption).
  reflexivity.
Qed.

(** The layers that [ResidualBlock.__init__] stores: [num_repeats] copies of
    the pair of blocks. *)
Lemma ResidualBlock_layers (channels : Z) (use_residual : bool) (num_repeats : Z) :
  ResidualBlock.layers (ResidualBlock.__init__ channels use_residual num_repeats)
  = replicate (Z.to_nat num_repeats) (residual_pair channels).
Proof.
  cbn [ResidualBlock.layers ResidualBlock.__init__]. fold (residual_pair channels).
  assert (Hgen : forall (l : list Z) (acc : list Sequential.t),
    foldl (fun layers _ => layers ++ [residual_pair channels]) acc l
    = acc ++ replicate (length l) (residual_pair channels)).
  { induction l as [|z l IH]; intros acc; cbn [foldl length replicate].
    - rewrite app_nil_r. reflexivity.
    - rewrite IH. rewrite <- app_assoc. reflexivity. }
  rewrite Hgen, range_length. reflexivity.
Qed.

Lemma ResidualBlock_forward_dims (c : Z) (use_residual : bool) (r n h w : Z) :
  0 < h -> 0 < w ->
  ResidualBlock.forward (ResidualBlock.__init__ c use_residual r) [n; c; h; w]
  = Ok [n; c; h; w].
Proof.
  intros Hh Hw. unfold ResidualBlock.forward. rewrite ResidualBlock_layers.
  cbn [ResidualBlock.use_residual ResidualBlock.__init__].
  induction (Z.to_nat r) as [|k IH]; cbn [replicate for_each]; [reflexivity|].
  destruct use_residual.
  - rewrite residual_pair_forward by assumption. cbn [mbind res_bind].
    change (add [n; c; h; w] [n; c; h; w]) with (shapes.add [n; c; h; w] [n; c; h; w]).
    rewrite add_same. exact IH.
  - rewrite residual_pair_forward by assumption. exact IH.
Qed.

Lemma ScalePrediction_forward_dims (c nc n h w : Z) :
  0 <= nc -> 0 <= n -> 0 < h -> 0 < w ->
  ScalePrediction.forward (ScalePrediction.__init__ c nc) [n; c; h; w]
  = Ok [n; 3; h; w; nc + 5].
Proof.
  intros Hnc Hn Hh Hw. unfold ScalePrediction.forward, Sequential.forward.
  cbn [ScalePrediction.pred ScalePrediction.num_classes ScalePrediction.__init__ for_each].
  rewrite (CNNBlock_forward_dims c (2 * c) true _ n h w h w)
    by (apply conv_dim_k3_s1; assumption).
  cbn [mbind res_bind].
  rewrite (CNNBlock_forward_dims (2 * c) ((nc + 5) * 3) false _ n h w h w)
    by (apply conv_dim_k1; assumption).
  cbn [mbind res_bind].
  change (pylist.getitem (shape [n; c; h; w]) 0) with (Ok (A:=Z) n).
  change (pylist.getitem (shape [n; c; h; w]) 2) with (Ok (A:=Z) h).
  change (pylist.getitem (shape [n; c; h; w]) 3) with (Ok (A:=Z) w).
  cbn [mbind res_bind reshape permute shape_torch].
  unfold shapes.reshape.
  assert (Hnn : forallb (fun d => 0 <=? d) [n; 3; nc + 5; h; w] = true).
  { cbn [forallb]. rewrite !andb_true_iff, !Z.leb_le. lia. }
  assert (Hprod : (shapes.prod [n; (nc + 5) * 3; h; w]
                   =? shapes.prod [n; 3; nc + 5; h; w]) = true).
  { apply Z.eqb_eq. unfold shapes.prod. cbn [fold_right]. ring. }
  rewrite Hnn, Hprod. reflexivity.
Qed.

Lemma interpolate_cat_dims (n c h w c2 h2 w2 : Z) :
  h2 = h * 2 -> w2 = w * 2 ->
  (up ← interpolate (nn.mkUpsample 2) [n; c; h; w]; cat [up; [n; c2; h2; w2]] 1)
  = Ok [n; c + c2; h2; w2].
Proof.
  intros -> ->. cbn [interpolate shape_torch shapes.interpolate length map nn.scale_factor].
  rewrite bool_decide_eq_true_2 by lia.
  cbn [mbind res_bind cat shape_torch shapes.cat length Z.of_nat Pos.of_succ_nat Pos.succ
       Z.ltb Z.leb Z.compare Pos.compare Pos.compare_cont orb for_each].
  unfold shapes.cat2. change (Z.to_nat 1) with 1%nat.
  cbn [lookup list_lookup length take drop].
  rewrite !bool_decide_eq_true_2 by reflexivity. reflexivity.
Qed.

(** ** The loop of [forward] on shapes, one layer at a time *)

Lemma loop_cnn (cin cout : Z) (bn_act : bool) (kw : nn.kwargs) (n c h w h' w' : Z)
    (outs rc : list (list Z)) (ls : list Layer) :
  c = cin ->
  conv_dim (nn.kw_kernel_size kw) (default 1 (nn.kw_stride kw))
    (default 0 (nn.kw_padding kw)) h h' ->
  conv_dim (nn.kw_kernel_size kw) (default 1 (nn.kw_stride kw))
    (default 0 (nn.kw_padding kw)) w w' ->
  YOLOv3.forward_loop (LCNNBlock (CNNBlock.__init__ cin cout bn_act kw) :: ls)
    (YOLOv3.mkLocals [n; c; h; w] outs rc)
  = YOLOv3.forward_loop ls (YOLOv3.mkLocals [n; cout; h'; w'] outs rc).
Proof.
  intros -> Hh Hw. unfold YOLOv3.forward_loop.
  cbn [for_each YOLOv3.forward_body call_layer YOLOv3.x YOLOv3.outputs
       YOLOv3.route_connections].
  rewrite (CNNBlock_forward_dims cin cout bn_act kw n h w h' w' Hh Hw). reflexivity.
Qed.

Lemma loop_residual (cr : Z) (use_residual : bool) (r n c h w : Z)
    (outs rc : list (list Z)) (ls : list Layer) :
  c = cr -> 0 < h -> 0 < w ->
  YOLOv3.forward_loop
    (LResidualBlock (ResidualBlock.__init__ cr use_residual r) :: ls)
    (YOLOv3.mkLocals [n; c; h; w] outs rc)
  = YOLOv3.forward_loop ls
      (YOLOv3.mkLocals [n; cr; h; w] outs
         (if r =? 8 then rc ++ [[n; cr; h; w]] else rc)).
Proof.
  intros -> Hh Hw. unfold YOLOv3.forward_loop.
  cbn [for_each YOLOv3.forward_body call_layer YOLOv3.x YOLOv3.outputs
       YOLOv3.route_connections].
  rewrite ResidualBlock_forward_dims by assumption.
  cbn [mbind res_bind ResidualBlock.num_repeats ResidualBlock.__init__].
  destruct (r =? 8); reflexivity.
Qed.

Lemma loop_scale (cs nc n c h w : Z) (outs rc : list (list Z)) (ls : list Layer) :
  c = cs -> 0 <= nc -> 0 <= n -> 0 < h -> 0 < w ->
  YOLOv3.forward_loop (LScalePrediction (ScalePrediction.__init__ cs nc) :: ls)
    (YOLOv3.mkLocals [n; c; h; w] outs rc)
  = YOLOv3.forward_loop ls
      (YOLOv3.mkLocals [n; c; h; w] (outs ++ [[n; 3; h; w; nc + 5]]) rc).
Proof.
  intros -> Hnc Hn Hh Hw. unfold YOLOv3.forward_loop.
  cbn [for_each YOLOv3.forward_body call_layer YOLOv3.x YOLOv3.outputs
       YOLOv3.route_connections].
  rewrite ScalePrediction_forward_dims by assumption. reflexivity.
Qed.

Lemma loop_upsample (n c h w c2 h2 w2 : Z) (outs rc : list (list Z)) (ls : list Layer) :
  h2 = h * 2 -> w2 = w * 2 ->
  YOLOv3.forward_loop (LUpsample (nn.mkUpsample 2) :: ls)
    (YOLOv3.mkLocals [n; c; h; w] outs (rc ++ [[n; c2; h2; w2]]))
  = YOLOv3.forward_loop ls (YOLOv3.mkLocals [n; c + c2; h2; w2] outs rc).
Proof.
  intros Hh Hw. unfold YOLOv3.forward_loop.
  cbn [for_each YOLOv3.forward_body call_layer YOLOv3.x YOLOv3.outputs
       YOLOv3.route_connections].
  pose proof (interpolate_cat_dims n c h w c2 h2 w2 Hh Hw) as Hcat.
  destruct (interpolate (nn.mkUpsample 2) [n; c; h; w]) as [up|e]; [|discriminate].
  cbn [mbind res_bind] in Hcat |- *.
  rewrite getitem_last. cbn [mbind res_bind]. rewrite Hcat. cbn [mbind res_bind].
  rewrite pop_last. reflexivity.
Qed.

(** The layers that [_create_conv_layers] builds from [model_config]. *)
Lemma create_conv_layers_eq (in_channels num_classes : Z) :
  YOLOv3._create_conv_layers in_channels num_classes =
  [ LCNNBlock (CNNBlock.__init__ in_channels 32 true (nn.mkKwargs 3 (Some 1) (Some 1)));
    LCNNBlock (CNNBlock.__init__ 32 64 true (nn.mkKwargs 3 (Some 2) (Some 1)));
    LResidualBlock (ResidualBlock.__init__ 64 true 1);
    LCNNBlock (CNNBlock.__init__ 64 128 true (nn.mkKwargs 3 (Some 2) (Some 1)));
    LResidualBlock (ResidualBlock.__init__ 128 true 2);
    LCNNBlock (CNNBlock.__init__ 128 256 true (nn.mkKwargs 3 (Some 2) (Some 1)));
    LResidualBlock (ResidualBlock.__init__ 256 true 8);
    LCNNBlock (CNNBlock.__init__ 256 512 true (nn.mkKwargs 3 (Some 2) (Some 1)));
    LResidualBlock (ResidualBlock.__init__ 512 true 8);
    LCNNBlock (CNNBlock.__init__ 512 1024 true (nn.mkKwargs 3 (Some 2) (Some 1)));
    LResidualBlock (ResidualBlock.__init__ 1024 true 4);
    LCNNBlock (CNNBlock.__init__ 1024 512 true (nn.mkKwargs 1 (Some 1) (Some 0)));
    LCNNBlock (CNNBlock.__init__ 512 1024 true (nn.mkKwargs 3 (Some 1) (Some 1)));
    LResidualBlock (ResidualBlock.__init__ 1024 false 1);
    LCNNBlock (CNNBlock.__init__ 1024 512 true (nn.mkKwargs 1 None None));
    LScalePrediction (ScalePrediction.__init__ 512 num_classes);
    LCNNBlock (CNNBlock.__init__ 512 256 true (nn.mkKwargs 1 (Some 1) (Some 0)));
    LUpsample (nn.mkUpsample 2);
    LCNNBlock (CNNBlock.__init__ 768 256 true (nn.mkKwargs 1 (Some 1) (Some 0)));
    LCNNBlock (CNNBlock.__init__ 256 512 true (nn.mkKwargs 3 (Some 1) (Some 1)));
    LResidualBlock (ResidualBlock.__init__ 512 false 1);
    LCNNBlock (CNNBlock.__init__ 512 256 true (nn.mkKwargs 1 None None));
    LScalePrediction (ScalePrediction.__init__ 256 num_classes);
    LCNNBlock (CNNBlock.__init__ 256 128 true (nn.mkKwargs 1 (Some 1) (Some 0)));
    LUpsample (nn.mkUpsample 2);
    LCNNBlock (CNNBlock.__init__ 384 128 true (nn.mkKwargs 1 (Some 1) (Some 0)));
    LCNNBlock (CNNBlock.__init__ 128 256 true (nn.mkKwargs 3 (Some 1) (Some 1)));
    LResidualBlock (ResidualBlock.__init__ 256 false 1);
    LCNNBlock (CNNBlock.__init__ 256 128 true (nn.mkKwargs 1 None None));
    LScalePrediction (ScalePrediction.__init__ 128 num_classes) ].
Proof. reflexivity. Qed.

Ltac conv_dims :=
  first [ apply conv_dim_k3_s2 | apply conv_dim_k3_s1 | apply conv_dim_k1 ]; lia.

Ltac loop_step :=
  first
    [ erewrite loop_cnn; [ | reflexivity | conv_dims | conv_dims ]
    | rewrite loop_residual by (reflexivity || lia); cbn [Z.eqb Pos.eqb]
    | rewrite loop_scale by (reflexivity || lia)
    | erewrite loop_upsample; [ | lia | lia ] ].

(** The whole loop on an input whose height and width are multiples of 32:
    three outputs, at strides 32, 16 and 8, and no route connection left. *)
Lemma forward_loop_dims (in_channels num_classes n h w : Z) :
  0 <= num_classes -> 0 <= n -> 0 < h -> 0 < w ->
  YOLOv3.forward_loop (YOLOv3._create_conv_layers in_channels num_classes)
    (YOLOv3.mkLocals [n; in_channels; 32 * h; 32 * w] [] [])
  = Ok (YOLOv3.mkLocals [n; 128; 4 * h; 4 * w]
          [[n; 3; h; w; num_classes + 5];
           [n; 3; 2 * h; 2 * w; num_classes + 5];
           [n; 3; 4 * h; 4 * w; num_classes + 5]]
          []).
Proof.
  intros Hnc Hn Hh Hw. rewrite create_conv_layers_eq.
  replace (32 * h) with (2 * (2 * (2 * (2 * (2 * h))))) by lia.
  replace (32 * w) with (2 * (2 * (2 * (2 * (2 * w))))) by lia.
  replace (4 * h) with (2 * (2 * h)) by lia.
  replace (4 * w) with (2 * (2 * w)) by lia.
  do 30 loop_step. reflexivity.
Qed.

(** ** The loop of [forward] on any tensors: outputs and route connections *)

Section forward_structure.
Context `{Torch T}.

Implicit Types (st : YOLOv3.locals (T:=T)) (layer : Layer) (layers : list Layer).

Lemma forward_body_cnn st (m : CNNBlock.t) :
  YOLOv3.forward_body st (LCNNBlock m)
  = x' ← CNNBlock.forward m (YOLOv3.x st);
    Ok (YOLOv3.mkLocals x' (YOLOv3.outputs st) (YOLOv3.route_connections st)).
Proof. reflexivity. Qed.

Lemma forward_body_residual st (m : ResidualBlock.t) :
  YOLOv3.forward_body st (LResidualBlock m)
  = x' ← ResidualBlock.forward m (YOLOv3.x st);
    Ok (YOLOv3.mkLocals x' (YOLOv3.outputs st)
          (if ResidualBlock.num_repeats m =? 8
           then YOLOv3.route_connections st ++ [x']
           else YOLOv3.route_connections st)).
Proof.
  cbn [YOLOv3.forward_body call_layer].
  destruct (ResidualBlock.forward m (YOLOv3.x st)) as [x'|e]; [|reflexivity].
  cbn [mbind res_bind]. destruct (_ =? 8); reflexivity.
Qed.

Lemma forward_body_scale st (m : ScalePrediction.t) :
  YOLOv3.forward_body st (LScalePrediction m)
  = o ← ScalePrediction.forward m (YOLOv3.x st);
    Ok (YOLOv3.mkLocals (YOLOv3.x st) (YOLOv3.outputs st ++ [o])
          (YOLOv3.route_connections st)).
Proof. reflexivity. Qed.

Lemma forward_body_upsample (x : T) (outs rest : list T) (r : T) (u : nn.Upsample) :
  YOLOv3.forward_body (YOLOv3.mkLocals x outs (rest ++ [r])) (LUpsample u)
  = up ← interpolate u x;
    c ← cat [up; r] 1;
    Ok (YOLOv3.mkLocals c outs rest).
Proof.
  cbn [YOLOv3.forward_body call_layer YOLOv3.x YOLOv3.outputs YOLOv3.route_connections].
  destruct (interpolate u x) as [up|e]; [|reflexivity].
  cbn [mbind res_bind]. rewrite getitem_last. cbn [mbind res_bind].
  destruct (cat [up; r] 1) as [c|e]; [|reflexivity].
  cbn [mbind res_bind]. rewrite pop_last. reflexivity.
Qed.

Lemma forward_body_upsample_nil (x : T) (outs : list T) (u : nn.Upsample) :
  YOLOv3.forward_body (YOLOv3.mkLocals x outs []) (LUpsample u)
  = up ← interpolate u x; Raise IndexError.
Proof.
  cbn [YOLOv3.forward_body call_layer YOLOv3.x YOLOv3.outputs YOLOv3.route_connections].
  destruct (interpolate u x) as [up|e]; reflexivity.
Qed.

(** What one iteration does to the stored route connections. *)
Lemma forward_body_routes st layer st' :
  YOLOv3.forward_body st layer = Ok st' ->
  YOLOv3.route_connections st' =
    if stores_route layer then YOLOv3.route_connections st ++ [YOLOv3.x st']
    else if is_upsample layer then removelast (YOLOv3.route_connections st)
    else YOLOv3.route_connections st.
Proof.
  destruct st as [x outs rc]. destruct layer as [m|m|m|u].
  - rewrite forward_body_cnn. intros (x' & _ & [= <-])%bind_Ok_inv. reflexivity.
  - rewrite forward_body_residual. intros (x' & _ & [= <-])%bind_Ok_inv.
    cbn [stores_route is_upsample YOLOv3.route_connections YOLOv3.x].
    destruct (_ =? 8); reflexivity.
  - rewrite forward_body_scale. intros (o & _ & [= <-])%bind_Ok_inv. reflexivity.
  - destruct rc as [|r rest _] using rev_ind.
    + rewrite forward_body_upsample_nil. intros (up & _ & [=])%bind_Ok_inv.
    + rewrite forward_body_upsample.
      intros (up & _ & (c & _ & [= <-])%bind_Ok_inv)%bind_Ok_inv.
      cbn [stores_route is_upsample YOLOv3.route_connections].
      rewrite removelast_last. reflexivity.
Qed.

(** An [nn.Upsample] that returns had a route connection to read. *)
Lemma forward_body_upsample_nonempty st (u : nn.Upsample) st' :
  YOLOv3.forward_body st (LUpsample u) = Ok st' ->
  YOLOv3.route_connections st <> [].
Proof.
  destruct st as [x outs rc]. destruct rc as [|r rc]; [|discriminate].
  rewrite forward_body_upsample_nil. intros (up & _ & [=])%bind_Ok_inv.
Qed.

Lemma route_depth_app layers1 layers2 (d : nat) :
  route_depth (layers1 ++ layers2) d = route_depth layers1 d ≫= route_depth layers2.
Proof.
  revert d. induction layers1 as [|layer layers1 IH]; intros d; [reflexivity|].
  cbn [app route_depth]. destruct (stores_route layer); [apply IH|].
  destruct (is_upsample layer); [|apply IH].
  destruct d as [|d]; [reflexivity|apply IH].
Qed.

(** [route_depth] counts the stored route connections of a run that returns. *)
Lemma forward_loop_depth layers st st' :
  YOLOv3.forward_loop layers st = Ok st' ->
  route_depth layers (length (YOLOv3.route_connections st))
  = Some (length (YOLOv3.route_connections st')).
Proof.
  unfold YOLOv3.forward_loop. revert st.
  induction layers as [|layer layers IH]; intros st; cbn [for_each route_depth].
  - intros [= <-]. reflexivity.
  - intros (st1 & Hbody & Hrest)%bind_Ok_inv.
    pose proof (forward_body_routes _ _ _ Hbody) as Hrc.
    apply IH in Hrest. rewrite Hrc in Hrest.
    destruct (stores_route layer).
    { rewrite length_app, Nat.add_1_r in Hrest. exact Hrest. }
    destruct layer as [m|m|m|u]; cbn [is_upsample] in *; try exact Hrest.
    apply forward_body_upsample_nonempty in Hbody.
    destruct (YOLOv3.route_connections st) as [|r rc] using rev_ind; [congruence|].
    rewrite removelast_last in Hrest. rewrite length_app, Nat.add_1_r. exact Hrest.
Qed.

(** The outputs of a run that returns: one per head, in the order of the heads. *)
Lemma forward_loop_heads layers st st' :
  YOLOv3.forward_loop layers st = Ok st' ->
  exists os, YOLOv3.outputs st' = YOLOv3.outputs st ++ os
             /\ Forall2 head_output (scale_heads layers) os.
Proof.
  unfold YOLOv3.forward_loop. revert st.
  induction layers as [|layer layers IH]; intros st; cbn [for_each].
  - intros [= <-]. exists []. rewrite app_nil_r. split; [reflexivity|constructor].
  - intros (st1 & Hbody & Hrest)%bind_Ok_inv.
    destruct (IH _ Hrest) as (os & Hos & Hheads). clear IH Hrest.
    destruct st as [x outs rc]. destruct layer as [m|m|m|u].
    + rewrite forward_body_cnn in Hbody.
      apply bind_Ok_inv in Hbody as (x' & _ & [= <-]). exists os. auto.
    + rewrite forward_body_residual in Hbody.
      apply bind_Ok_inv in Hbody as (x' & _ & [= <-]). exists os. auto.
    + rewrite forward_body_scale in Hbody.
      apply bind_Ok_inv in Hbody as (o & Ho & [= <-]).
      exists (o :: os). cbn [YOLOv3.outputs] in *. split.
      * rewrite Hos, <- app_assoc. reflexivity.
      * cbn. constructor; [exists x; exact Ho|exact Hheads].
    + destruct rc as [|r rest _] using rev_ind.
      * rewrite forward_body_upsample_nil in Hbody.
        apply bind_Ok_inv in Hbody as (up & _ & [=]).
      * rewrite forward_body_upsample in Hbody.
        apply bind_Ok_inv in Hbody as (up & _ & (c & _ & [= <-])%bind_Ok_inv).
        exists os. auto.
Qed.

(** Every stored route connection is the output of a residual block with
    [num_repeats == 8]. *)
Lemma forward_loop_route_outputs layers st st' :
  Forall route_output (YOLOv3.route_connections st) ->
  YOLOv3.forward_loop layers st = Ok st' ->
  Forall route_output (YOLOv3.route_connections st').
Proof.
  unfold YOLOv3.forward_loop. revert st.
  induction layers as [|layer layers IH]; intros st Hst; cbn [for_each].
  - intros [= <-]. exact Hst.
  - intros (st1 & Hbody & Hrest)%bind_Ok_inv. apply (IH st1); [|exact Hrest].
    clear IH Hrest. destruct st as [x outs rc]. cbn [YOLOv3.route_connections] in Hst.
    destruct layer as [m|m|m|u].
    + rewrite forward_body_cnn in Hbody.
      apply bind_Ok_inv in Hbody as (x' & _ & [= <-]). exact Hst.
    + rewrite forward_body_residual in Hbody.
      apply bind_Ok_inv in Hbody as (x' & Hx' & [= <-]).
      cbn [YOLOv3.route_connections YOLOv3.x] in *.
      destruct (Z.eqb_spec (ResidualBlock.num_repeats m) 8) as [H8|_]; [|exact Hst].
      apply Forall_app. split; [exact Hst|].
      constructor; [|constructor]. exists m, x. split; assumption.
    + rewrite forward_body_scale in Hbody.
      apply bind_Ok_inv in Hbody as (o & _ & [= <-]). exact Hst.
    + destruct rc as [|r rest _] using rev_ind.
      * rewrite forward_body_upsample_nil in Hbody.
        apply bind_Ok_inv in Hbody as (up & _ & [=]).
      * rewrite forward_body_upsample in Hbody.
        apply bind_Ok_inv in Hbody as (up & _ & (c & _ & [= <-])%bind_Ok_inv).
        apply Forall_app in Hst as [Hst _]. exact Hst.
Qed.

End forward_structure.

(** ** Shapes follow the shape rules *)

Lemma res_fmap_id {A : Type} (r : res A) : id <$> r = r.
Proof. destruct r; reflexivity. Qed.

#[global] Instance shape_torch_laws : TorchLaws (list Z).
Proof.
  split; intros; cbn [shape shape_torch]; rewrite ?list_fmap_id; apply res_fmap_id.
Qed.

(** ** A block that returns was given a 4-D input with its channels *)

Lemma CNNBlock_forward_inv (cin cout : Z) (kw : nn.kwargs) (s y : list Z) :
  CNNBlock.forward (CNNBlock.__init__ cin cout true kw) s = Ok y ->
  exists n h w,
    s = [n; cin; h; w]
    /\ y = [n; cout;
            shapes.conv_out (nn.Conv2d_init cin cout false kw) h;
            shapes.conv_out (nn.Conv2d_init cin cout false kw) w].
Proof.
  unfold CNNBlock.forward, CNNBlock.__init__.
  cbn [CNNBlock.use_bn_act CNNBlock.conv CNNBlock.bn CNNBlock.leaky negb].
  intros (a & Hconv & (b & Hbn & Hleaky)%bind_Ok_inv)%bind_Ok_inv.
  injection Hleaky as <-.
  cbn [conv2d batch_norm shape_torch] in Hconv, Hbn.
  unfold shapes.conv2d in Hconv. unfold shapes.batch_norm in Hbn.
  destruct s as [|d0 [|d1 [|d2 [|d3 [|d4 s]]]]]; try discriminate.
  - destruct (_ && _); [|discriminate]. injection Hconv as <-. discriminate.
  - destruct (Z.eqb_spec d1 (nn.in_channels (nn.Conv2d_init cin cout false kw))) as [->|];
      [|discriminate].
    cbn [andb nn.in_channels nn.out_channels nn.Conv2d_init] in Hconv.
    destruct (_ && _); [|discriminate]. injection Hconv as <-.
    cbn [nn.num_features] in Hbn. rewrite Z.eqb_refl in Hbn. injection Hbn as <-.
    exists d0, d2, d3. split; reflexivity.
Qed.

Lemma residual_pair_forward_inv (c : Z) (s y : list Z) :
  Sequential.forward (residual_pair c) s = Ok y -> y = s.
Proof.
  unfold Sequential.forward, residual_pair. cbn [for_each].
  intros (a & Ha & (b & Hb & [= <-])%bind_Ok_inv)%bind_Ok_inv.
  apply CNNBlock_forward_inv in Ha as (n & h & w & -> & ->).
  apply CNNBlock_forward_inv in Hb as (n' & h' & w' & [= <- <- <-] & ->).
  unfold shapes.conv_out.
  cbn [nn.padding nn.kernel_size nn.stride nn.Conv2d_init nn.kw_kernel_size
       nn.kw_stride nn.kw_padding default].
  rewrite !Z.div_1_r. unfold id. do 2 f_equal. f_equal; [lia|]. f_equal. lia.
Qed.

Lemma residual_forward_inv (c r : Z) (s y : list Z) :
  ResidualBlock.forward (ResidualBlock.__init__ c true r) s = Ok y -> y = s.
Proof.
  unfold ResidualBlock.forward. rewrite ResidualBlock_layers.
  cbn [ResidualBlock.use_residual ResidualBlock.__init__].
  induction (Z.to_nat r) as [|k IH]; cbn [replicate for_each].
  - intros [= <-]. reflexivity.
  - intros (a & (b & Hb & Ha)%bind_Ok_inv & Hrest)%bind_Ok_inv.
    apply residual_pair_forward_inv in Hb as ->.
    change (add s s) with (shapes.add s s) in Ha. rewrite add_same in Ha.
    injection Ha as <-. apply IH. exact Hrest.
Qed.

(** ** ResidualBlock and ScalePrediction *)





(** ** YOLOv3.forward *)

Lemma init_fields {T : Type} {torch : Torch T} {Loader : Type}
    (config : Config.t) (train_loader test_loader : Loader)
    (in_channels num_classes : Z) (self : YOLOv3.t T Loader) :
  YOLOv3.__init__ config train_loader test_loader in_channels num_classes = Ok self ->
  YOLOv3.layers self = YOLOv3._create_conv_layers in_channels num_classes
  /\ YOLOv3.in_channels self = in_channels
  /\ YOLOv3.num_classes self = num_classes
  /\ YOLOv3.config self = config
  /\ YOLOv3.train_loader self = train_loader
  /\ YOLOv3.test_loader self = test_loader.
Proof.
  unfold YOLOv3.__init__. intros (a & _ & [= <-])%bind_Ok_inv. repeat split.
Qed.

(** The loop on tensors whose input has a shape with height and width
    multiples of 32. *)
Lemma forward_loop_returns {T : Type} {torch : Torch T} {laws : TorchLaws T}
    (in_channels num_classes : Z) (x : T) (N h w : Z) :
  0 <= num_classes -> 0 < N -> 0 < h -> 0 < w ->
  shape x = [N; in_channels; 32 * h; 32 * w] ->
  exists (st' : YOLOv3.locals) (o1 o2 o3 : T),
    YOLOv3.forward_loop (YOLOv3._create_conv_layers in_channels num_classes)
      (YOLOv3.mkLocals x [] []) = Ok st'
    /\ YOLOv3.outputs st' = [o1; o2; o3]
    /\ YOLOv3.route_connections st' = []
    /\ shape o1 = [N; 3; h; w; num_classes + 5]
    /\ shape o2 = [N; 3; 2 * h; 2 * w; num_classes + 5]
    /\ shape o3 = [N; 3; 4 * h; 4 * w; num_classes + 5].
Proof.
  intros Hnc HN Hh Hw Hx.
  destruct (forward_loop_of_shapes
              (YOLOv3._create_conv_layers in_channels num_classes)
              (YOLOv3.mkLocals x [] [])
              (YOLOv3.mkLocals [N; 128; 4 * h; 4 * w]
                 [[N; 3; h; w; num_classes + 5];
                  [N; 3; 2 * h; 2 * w; num_classes + 5];
                  [N; 3; 4 * h; 4 * w; num_classes + 5]] []))
    as (st' & Hrun & Hst').
  { unfold locals_shape. cbn [YOLOv3.x YOLOv3.outputs YOLOv3.route_connections fmap list_fmap].
    rewrite Hx. apply forward_loop_dims; lia. }
  destruct st' as [x' outs rc]. unfold locals_shape in Hst'.
  cbn [YOLOv3.x YOLOv3.outputs YOLOv3.route_connections] in Hst'.
  injection Hst' as _ Houts Hrc.
  destruct rc; [|discriminate].
  destruct outs as [|o1 [|o2 [|o3 [|o4 outs]]]]; try discriminate.
  injection Houts as Ho1 Ho2 Ho3.
  exists (YOLOv3.mkLocals x' [o1; o2; o3] []), o1, o2, o3. repeat split; assumption.
Qed.



(** C3. After an [nn.Upsample] layer is applied, the upsampled map is
    concatenated along [dim=1] with the last stored route connection, which is
    then removed; a route connection is stored, at the end of the list, after
    each [ResidualBlock] with [num_repeats == 8], and by no other layer; so the
    connections are read last in, first out, and each of them is the output of
    such a block. *)
Theorem upsample_concatenates_last_route {T : Type} {torch : Torch T} :
  (forall (x : T) (outs rest : list T) (r : T) (u : nn.Upsample),
     YOLOv3.forward_body (YOLOv3.mkLocals x outs (rest ++ [r])) (LUpsample u)
     = up ← interpolate u x;
       c ← cat [up; r] 1;
       Ok (YOLOv3.mkLocals c outs rest))
  /\ (forall (st : YOLOv3.locals) (m : ResidualBlock.t),
        ResidualBlock.num_repeats m = 8 ->
        YOLOv3.forward_body st (LResidualBlock m)
        = x' ← ResidualBlock.forward m (YOLOv3.x st);
          Ok (YOLOv3.mkLocals x' (YOLOv3.outputs st)
                (YOLOv3.route_connections st ++ [x'])))
  /\ (forall (st st' : YOLOv3.locals) (layer : Layer),
        YOLOv3.forward_body st layer = Ok st' ->
        stores_route layer = false -> is_upsample layer = false ->
        YOLOv3.route_connections st' = YOLOv3.route_connections st)
  /\ (forall (layers : list Layer) (x : T) (st : YOLOv3.locals),
        YOLOv3.forward_loop layers (YOLOv3.mkLocals x [] []) = Ok st ->
        Forall route_output (YOLOv3.route_connections st)).
Proof.
  split; [|split; [|split]].
  - intros x outs rest r u. apply forward_body_upsample.
  - intros st m H8. rewrite forward_body_residual.
    apply Z.eqb_eq in H8. rewrite H8. reflexivity.
  - intros st st' layer Hbody Hs Hu.
    apply forward_body_routes in Hbody. rewrite Hs, Hu in Hbody. exact Hbody.
  - intros layers x st Hrun.
    apply (forward_loop_route_outputs layers (YOLOv3.mkLocals x [] []) st); [|exact Hrun].
    constructor.
Qed.



(** ** The Lightning hooks *)

Section hooks.
Context {T : Type} {torch : Torch T} {Loader Boxes : Type}
        {extern : YOLOv3.Extern T Loader Boxes}.

Implicit Types (self : YOLOv3.t T Loader) (w : list (YOLOv3.event T Loader Boxes)).

(** [loss_fn] is bound neither in the module nor among the built-ins. *)
Lemma load_global_loss_fn : load_global "loss_fn" = Raise (NameError "loss_fn").
Proof. vm_compute. reflexivity. Qed.

(** The name under which the constructor keeps the loss is an attribute of
    the object, [self.loss_fn], and [YoloLoss] itself is bound. *)
Lemma load_global_YoloLoss :
  load_global "YoloLoss" = Ok (Imported "loss" (Some "YoloLoss")).
Proof. vm_compute. reflexivity. Qed.

(** X1. Every call of [training_step] raises and logs nothing; when the batch
    holds three targets and [forward] returns, the exception is the
    [NameError] of [loss_fn]. *)
Lemma training_step_always_raises self (batch : T * list T) (batch_idx : Z) w :
  exists e,
    YOLOv3.training_step self batch batch_idx w = (Raise e, w)
    /\ (forall y0 y1 y2 out,
          batch.2 = [y0; y1; y2] -> YOLOv3.forward self batch.1 = Ok out ->
          e = NameError "loss_fn").
Proof.
  destruct batch as [x y]. unfold YOLOv3.training_step. cbn [fst snd].
  unfold mbind, hook_bind, lift.
  destruct (pylist.getitem y 0) as [y0|e0] eqn:H0.
  2:{ exists e0. split; [reflexivity|]. intros ? ? ? ? ->. discriminate. }
  destruct (pylist.getitem y 1) as [y1|e1] eqn:H1.
  2:{ exists e1. split; [reflexivity|]. intros ? ? ? ? ->. discriminate. }
  destruct (pylist.getitem y 2) as [y2|e2] eqn:H2.
  2:{ exists e2. split; [reflexivity|]. intros ? ? ? ? ->. discriminate. }
  destruct (YOLOv3.forward self x) as [out|ef].
  2:{ exists ef. split; [reflexivity|]. intros ? ? ? ? _ [=]. }
  rewrite load_global_loss_fn. exists (NameError "loss_fn"). split; reflexivity.
Qed.

(** C10. [validation_step] returns [None], calls nothing and records nothing,
    whatever the batch and its index. *)
Theorem validation_step_does_nothing self (batch : T * list T) (batch_idx : Z) w :
  YOLOv3.validation_step self batch batch_idx w = (Ok PyNone, w).
Proof. reflexivity. Qed.

(** C7. [configure_optimizers] returns one Adam optimizer over the model's
    parameters, with learning rate 1e-5 and weight decay 1e-4, and one
    OneCycleLR scheduler on it, with [max_lr] 1e-3, [steps_per_epoch] the
    length of the training loader, 40 epochs, [div_factor] 100 and
    [pct_start] 5/40, that is 0.125. *)
Theorem configure_optimizers_returns self :
  exists optimizer scheduler,
    YOLOv3.configure_optimizers self = ([optimizer], [scheduler])
    /\ optim.params optimizer = YOLOv3.parameters self
    /\ optim.lr optimizer = 1e-5%float
    /\ optim.weight_decay optimizer = 1e-4%float
    /\ optim.optimizer scheduler = optimizer
    /\ optim.max_lr scheduler = 1e-3%float
    /\ optim.steps_per_epoch scheduler = YOLOv3.len (YOLOv3.train_loader self)
    /\ optim.epochs scheduler = 40
    /\ optim.div_factor scheduler = 100
    /\ optim.pct_start scheduler = (5 / 40)%float
    /\ optim.pct_start scheduler = 0.125%float.
Proof.
  eexists _, _. split; [reflexivity|]. repeat split.
Qed.

(** C6. At the end of a training epoch a checkpoint is saved exactly when
    [config.SAVE_MODEL] holds, under the name
    [checkpoint_{current_epoch}.pth.tar]; in both cases the class accuracy is
    then checked on the training loader, and nothing else is called. *)
Theorem training_epoch_end_checkpoint_iff self w :
  let filename := "checkpoint_" +:+ pretty (YOLOv3.current_epoch self) +:+ ".pth.tar" in
  let check :=
    YOLOv3.check_class_accuracy self (YOLOv3.train_loader self)
      (Config.CONF_THRESHOLD (YOLOv3.config self)) in
  exists evs,
    YOLOv3.training_epoch_end self w = (Ok PyNone, w ++ evs)
    /\ evs = (if Config.SAVE_MODEL (YOLOv3.config self)
              then [YOLOv3.save_checkpoint self filename; check]
              else [check])
    /\ ((exists model name, YOLOv3.save_checkpoint model name ∈ evs)
        <-> Config.SAVE_MODEL (YOLOv3.config self) = true)
    /\ last evs = Some check.
Proof.
  intros filename check. unfold YOLOv3.training_epoch_end.
  fold filename. fold check.
  destruct (Config.SAVE_MODEL (YOLOv3.config self)).
  - exists [YOLOv3.save_checkpoint self filename; check].
    split; [|split; [reflexivity|split; [|reflexivity]]].
    + unfold mbind, hook_bind, YOLOv3.emit. rewrite <- app_assoc. reflexivity.
    + split; [reflexivity|]. intros _. exists self, filename. apply list_elem_of_here.
  - exists [check]. split; [reflexivity|]. split; [reflexivity|]. split; [|reflexivity].
    split; [|discriminate].
    intros (model & name & Hin). apply list_elem_of_singleton in Hin. discriminate.
Qed.

(** C5. At the end of a validation epoch the mean average precision over the
    test loader is computed and logged under ["MAP"] exactly when the current
    epoch is divisible by 10 or is 1, 2 or 3: then the class accuracy is
    checked, the boxes are evaluated on the test loader, their mean average
    precision is computed, printed and logged; for every other epoch nothing
    is called. *)
Theorem validation_epoch_end_evaluates_iff self w :
  let e := YOLOv3.current_epoch self in
  let c := YOLOv3.config self in
  let due := (10 | e) \/ e = 1 \/ e = 2 \/ e = 3 in
  let check :=
    YOLOv3.check_class_accuracy self (YOLOv3.test_loader self) (Config.CONF_THRESHOLD c) in
  let boxes :=
    YOLOv3.get_evaluation_bboxes (YOLOv3.test_loader self) self
      (Config.NMS_IOU_THRESH c) (Config.ANCHORS c) (Config.CONF_THRESHOLD c) in
  let '(pred_boxes, true_boxes) := YOLOv3.get_evaluation_bboxes_ret (w ++ [check; boxes]) in
  let map :=
    YOLOv3.mean_average_precision pred_boxes true_boxes
      (Config.MAP_IOU_THRESH c) "midpoint" (Config.NUM_CLASSES c) in
  let mapval := YOLOv3.mean_average_precision_ret (w ++ [check; boxes; map]) in
  let logged := YOLOv3.log "MAP" (YOLOv3.MFloat (YOLOv3.item mapval)) true true true in
  exists evs,
    YOLOv3.validation_epoch_end self w = (Ok PyNone, w ++ evs)
    /\ (due -> evs = [check; boxes; map; YOLOv3.print mapval; logged])
    /\ (~ due -> evs = [])
    /\ ((exists value prog_bar on_step on_epoch,
           YOLOv3.log "MAP" value prog_bar on_step on_epoch ∈ evs) <-> due).
Proof.
  intros e c due check boxes.
  destruct (YOLOv3.get_evaluation_bboxes_ret (w ++ [check; boxes]))
    as [pred_boxes true_boxes] eqn:Hboxes.
  intros map mapval logged.
  assert (Hdue : (e `mod` 10 =? 0) || bool_decide (e ∈ [1; 2; 3]) = true <-> due).
  { unfold due. rewrite orb_true_iff, Z.eqb_eq, bool_decide_eq_true.
    rewrite Z.mod_divide by lia.
    rewrite !elem_of_cons, elem_of_nil. tauto. }
  unfold YOLOv3.validation_epoch_end. fold e. fold c.
  destruct ((e `mod` 10 =? 0) || bool_decide (e ∈ [1; 2; 3])) eqn:Hcond.
  - assert (Hd : due) by (apply Hdue; reflexivity).
    exists [check; boxes; map; YOLOv3.print mapval; logged].
    split; [|split; [reflexivity|split; [tauto|]]].
    + unfold mbind, hook_bind, YOLOv3.emit, YOLOv3.emit_ret.
      fold check. rewrite <- !app_assoc. cbn [app]. fold boxes.
      rewrite Hboxes. fold map. rewrite <- !app_assoc. cbn [app]. reflexivity.
    + split; [intros _; exact Hd|]. intros _.
      exists (YOLOv3.MFloat (YOLOv3.item mapval)), true, true, true.
      do 4 apply list_elem_of_further. apply list_elem_of_here.
  - assert (Hd : ~ due) by (intros Hd; apply Hdue in Hd; discriminate).
    exists []. split; [rewrite app_nil_r; reflexivity|].
    split; [tauto|]. split; [reflexivity|].
    split; [|tauto]. intros (v & p & s1 & s2 & Hin). apply elem_of_nil in Hin. tauto.
Qed.

End hooks.

(** C1. The batch [(x, (y0, y1, y2))] with [x] of shape [(2, 3, 416, 416)]:
    [forward] returns its three outputs, and [training_step] then raises
    [NameError] for [loss_fn] before any loss is computed; nothing is logged. *)
Theorem training_step_failing_input :
  YOLOv3.forward (Example.model 0 true) [2; 3; 416; 416]
  = Ok [[2; 3; 13; 13; 25]; [2; 3; 26; 26; 25]; [2; 3; 52; 52; 25]]
  /\ YOLOv3.training_step (Example.model 0 true)
       ([2; 3; 416; 416], [[2; 3; 13; 13; 6]; [2; 3; 26; 26; 6]; [2; 3; 52; 52; 6]]) 0 []
     = (Raise (NameError "loss_fn"), []).
Proof. split; vm_compute; reflexivity. Qed.

(** The file name of the checkpoint of epoch 7. *)
Example training_epoch_end_epoch_7 :
  last (snd (YOLOv3.training_epoch_end (Boxes:=unit) (Example.model 7 true) []))
  = Some (YOLOv3.check_class_accuracy (Example.model 7 true) "train" 0.05%float)
  /\ head (snd (YOLOv3.training_epoch_end (Boxes:=unit) (Example.model 7 true) []))
     = Some (YOLOv3.save_checkpoint (Example.model 7 true) "checkpoint_7.pth.tar").
Proof. split; vm_compute; reflexivity. Qed.

(** ** Exceptions of the sub-modules on shapes *)

Lemma for_each_raise {A B : Type} (P : exn -> Prop)
    (body : A -> B -> res A) (l : list B) (acc : A) (e : exn) :
  (forall a b e', body a b = Raise e' -> P e') ->
  for_each body l acc = Raise e -> P e.
Proof.
  intros Hbody. revert acc. induction l as [|b l IH]; intros acc; cbn [for_each].
  - discriminate.
  - destruct (body acc b) as [acc'|e'] eqn:Hb; cbn [mbind res_bind].
    + apply IH.
    + intros [= <-]. apply (Hbody _ _ _ Hb).
Qed.

Lemma conv2d_raise (m : nn.Conv2d) (s : list Z) (e : exn) :
  shapes.conv2d m s = Raise e -> shape_error e.
Proof.
  unfold shapes.conv2d, shape_error.
  destruct s as [|d0 [|d1 [|d2 [|d3 [|d4 s]]]]]; try (intros [= <-]; reflexivity).
  - destruct (_ && _); [discriminate|]. intros [= <-]. reflexivity.
  - destruct (_ && _); [discriminate|]. intros [= <-]. reflexivity.
Qed.

Lemma batch_norm_raise (m : nn.BatchNorm2d) (s : list Z) (e : exn) :
  shapes.batch_norm m s = Raise e -> shape_error e.
Proof.
  unfold shapes.batch_norm, shape_error.
  destruct s as [|d0 [|d1 [|d2 [|d3 [|d4 s]]]]]; try (intros [= <-]; reflexivity).
  destruct (_ =? _); [discriminate|]. intros [= <-]. reflexivity.
Qed.

Lemma CNNBlock_forward_raise (b : CNNBlock.t) (s : list Z) (e : exn) :
  CNNBlock.forward b s = Raise e -> shape_error e.
Proof.
  unfold CNNBlock.forward. cbn [conv2d batch_norm leaky_relu shape_torch].
  destruct (CNNBlock.use_bn_act b); [|apply conv2d_raise].
  destruct (shapes.conv2d (CNNBlock.conv b) s) as [a|e'] eqn:Hconv; cbn [mbind res_bind].
  - destruct (shapes.batch_norm (CNNBlock.bn b) a) as [c|e'] eqn:Hbn; cbn [mbind res_bind].
    + discriminate.
    + intros [= <-]. apply (batch_norm_raise _ _ _ Hbn).
  - intros [= <-]. apply (conv2d_raise _ _ _ Hconv).
Qed.

Lemma Sequential_forward_raise (m : Sequential.t) (s : list Z) (e : exn) :
  Sequential.forward m s = Raise e -> shape_error e.
Proof.
  unfold Sequential.forward. apply for_each_raise.
  intros a b e'. apply CNNBlock_forward_raise.
Qed.

Lemma broadcast_rev_raise (a b : list Z) (e : exn) :
  shapes.broadcast_rev a b = Raise e -> shape_error e.
Proof.
  revert b. induction a as [|x a IH]; intros [|y b]; cbn [shapes.broadcast_rev];
    try discriminate.
  assert (Hrec : (forall z : Z, (z ::.) <$> shapes.broadcast_rev a b = Raise e ->
                                shape_error e)).
  { intros z. destruct (shapes.broadcast_rev a b) as [c|e'] eqn:Hab; [discriminate|].
    intros [= <-]. apply (IH _ Hab). }
  destruct (x =? y); [apply Hrec|].
  destruct (x =? 1); [apply Hrec|].
  destruct (y =? 1); [apply Hrec|].
  intros [= <-]. reflexivity.
Qed.

Lemma add_raise (a b : list Z) (e : exn) :
  shapes.add a b = Raise e -> shape_error e.
Proof.
  unfold shapes.add.
  destruct (shapes.broadcast_rev (rev a) (rev b)) as [c|e'] eqn:Hab; [discriminate|].
  intros [= <-]. apply (broadcast_rev_raise _ _ _ Hab).
Qed.

Lemma ResidualBlock_forward_raise (m : ResidualBlock.t) (s : list Z) (e : exn) :
  ResidualBlock.forward m s = Raise e -> shape_error e.
Proof.
  unfold ResidualBlock.forward. apply for_each_raise.
  intros a layer e'. destruct (ResidualBlock.use_residual m).
  - destruct (Sequential.forward layer a) as [y|e1] eqn:Hseq; cbn [mbind res_bind].
    + apply add_raise.
    + intros [= <-]. apply (Sequential_forward_raise _ _ _ Hseq).
  - apply Sequential_forward_raise.
Qed.

(** A block with batch normalisation that returns was given a 4-D input with
    its channels, each axis positive and no shorter than the kernel when padded. *)
Lemma CNNBlock_forward_inv_dims (cin cout : Z) (kw : nn.kwargs) (s y : list Z) :
  CNNBlock.forward (CNNBlock.__init__ cin cout true kw) s = Ok y ->
  exists n h w h' w',
    s = [n; cin; h; w] /\ y = [n; cout; h'; w']
    /\ conv_dim (nn.kw_kernel_size kw) (default 1 (nn.kw_stride kw))
         (default 0 (nn.kw_padding kw)) h h'
    /\ conv_dim (nn.kw_kernel_size kw) (default 1 (nn.kw_stride kw))
         (default 0 (nn.kw_padding kw)) w w'.
Proof.
  intros Hfwd. pose proof Hfwd as Hinv.
  apply CNNBlock_forward_inv in Hinv as (n & h & w & -> & ->).
  exists n, h, w. eexists _, _. split; [reflexivity|]. split; [reflexivity|].
  unfold CNNBlock.forward, CNNBlock.__init__ in Hfwd.
  cbn [CNNBlock.use_bn_act CNNBlock.conv negb conv2d shape_torch] in Hfwd.
  apply bind_Ok_inv in Hfwd as (a & Hconv & _).
  unfold shapes.conv2d in Hconv.
  destruct (_ && _) eqn:Hok in Hconv; [|discriminate].
  apply andb_prop in Hok as [Hok Hw]. apply andb_prop in Hok as [_ Hh].
  unfold shapes.conv_axis_ok in Hh, Hw.
  apply andb_prop in Hh as [Hh1 Hh2]. apply andb_prop in Hw as [Hw1 Hw2].
  apply Z.ltb_lt in Hh1, Hw1. apply Z.leb_le in Hh2, Hw2.
  unfold conv_dim, shapes.conv_out.
  cbn [nn.kernel_size nn.stride nn.padding nn.Conv2d_init] in *.
  repeat split; assumption.
Qed.

Lemma reshape_raise (s target : list Z) (e : exn) :
  shapes.reshape s target = Raise e -> shape_error e.
Proof.
  unfold shapes.reshape. destruct (_ && _); [discriminate|]. intros [= <-]. reflexivity.
Qed.

Lemma permute_raise (s dims : list Z) (e : exn) :
  shapes.permute s dims = Raise e -> shape_error e.
Proof.
  unfold shapes.permute. destruct (bool_decide _); [discriminate|].
  intros [= <-]. reflexivity.
Qed.

(** The head on shapes: what it is given when its two blocks return. *)
Lemma ScalePrediction_pred_inv (c nc : Z) (s p : list Z) :
  Sequential.forward (ScalePrediction.pred (ScalePrediction.__init__ c nc)) s = Ok p ->
  exists n h w, s = [n; c; h; w] /\ p = [n; (nc + 5) * 3; h; w] /\ 0 < h /\ 0 < w.
Proof.
  unfold Sequential.forward. cbn [ScalePrediction.pred ScalePrediction.__init__ for_each].
  intros (a & Ha & (b & Hb & [= <-])%bind_Ok_inv)%bind_Ok_inv.
  apply CNNBlock_forward_inv_dims in Ha as (n & h & w & h' & w' & -> & -> & Hh & Hw).
  destruct Hh as (Hh & _ & ->). destruct Hw as (Hw & _ & ->).
  cbn [nn.kw_kernel_size nn.kw_stride nn.kw_padding default] in Hb.
  unfold id in Hb. rewrite !Z.div_1_r in Hb.
  replace (h + 2 * 1 - 3 + 1) with h in Hb by lia.
  replace (w + 2 * 1 - 3 + 1) with w in Hb by lia.
  rewrite (CNNBlock_forward_dims (2 * c) ((nc + 5) * 3) false _ n h w h w) in Hb
    by (apply conv_dim_k1; assumption).
  injection Hb as <-. exists n, h, w. repeat split; assumption.
Qed.

Lemma ScalePrediction_forward_raise (c nc : Z) (s : list Z) (e : exn) :
  ScalePrediction.forward (ScalePrediction.__init__ c nc) s = Raise e -> shape_error e.
Proof.
  unfold ScalePrediction.forward.
  destruct (Sequential.forward _ s) as [p|e'] eqn:Hp; cbn [mbind res_bind].
  2:{ intros [= <-]. apply (Sequential_forward_raise _ _ _ Hp). }
  apply ScalePrediction_pred_inv in Hp as (n & h & w & -> & -> & Hh & Hw).
  change (pylist.getitem (shape [n; c; h; w]) 0) with (Ok (A:=Z) n).
  change (pylist.getitem (shape [n; c; h; w]) 2) with (Ok (A:=Z) h).
  change (pylist.getitem (shape [n; c; h; w]) 3) with (Ok (A:=Z) w).
  cbn [mbind res_bind reshape permute shape_torch].
  destruct (shapes.reshape _ _) as [r|e'] eqn:Hr; cbn [mbind res_bind].
  - apply permute_raise.
  - intros [= <-]. apply (reshape_raise _ _ _ Hr).
Qed.

Lemma ScalePrediction_forward_inv (c nc : Z) (s y : list Z) :
  ScalePrediction.forward (ScalePrediction.__init__ c nc) s = Ok y ->
  exists n h w, s = [n; c; h; w] /\ 0 <= n /\ 0 < h /\ 0 < w.
Proof.
  unfold ScalePrediction.forward.
  intros (p & Hp & Hrest)%bind_Ok_inv.
  apply ScalePrediction_pred_inv in Hp as (n & h & w & -> & -> & Hh & Hw).
  exists n, h, w. split; [reflexivity|]. split; [|split; assumption].
  change (pylist.getitem (shape [n; c; h; w]) 0) with (Ok (A:=Z) n) in Hrest.
  change (pylist.getitem (shape [n; c; h; w]) 2) with (Ok (A:=Z) h) in Hrest.
  change (pylist.getitem (shape [n; c; h; w]) 3) with (Ok (A:=Z) w) in Hrest.
  cbn [mbind res_bind reshape shape_torch] in Hrest.
  apply bind_Ok_inv in Hrest as (r & Hr & _). unfold shapes.reshape in Hr.
  destruct (forallb _ _) eqn:Hnn in Hr; [|discriminate].
  cbn [forallb] in Hnn. apply andb_prop in Hnn as [Hn _]. apply Z.leb_le in Hn. exact Hn.
Qed.

Lemma ResidualBlock_forward_inv_dims (c : Z) (use_residual : bool) (r : Z) (s y : list Z) :
  0 < r ->
  ResidualBlock.forward (ResidualBlock.__init__ c use_residual r) s = Ok y ->
  exists n h w, s = [n; c; h; w] /\ 0 < h /\ 0 < w.
Proof.
  intros Hr. unfold ResidualBlock.forward. rewrite ResidualBlock_layers.
  cbn [ResidualBlock.use_residual ResidualBlock.__init__].
  destruct (Z.to_nat r) as [|k] eqn:Hk; [lia|]. cbn [replicate for_each].
  intros (a & Ha & _)%bind_Ok_inv.
  assert (Hseq : exists b, Sequential.forward (residual_pair c) s = Ok b).
  { destruct use_residual.
    - apply bind_Ok_inv in Ha as (b & Hb & _). exists b. exact Hb.
    - exists a. exact Ha. }
  destruct Hseq as (b & Hb). unfold Sequential.forward, residual_pair in Hb.
  cbn [for_each] in Hb. apply bind_Ok_inv in Hb as (b1 & Hb1 & _).
  apply CNNBlock_forward_inv_dims in Hb1 as (n & h & w & h' & w' & -> & _ & Hh & Hw).
  exists n, h, w. destruct Hh as (Hh & _). destruct Hw as (Hw & _).
  repeat split; assumption.
Qed.

(** ** What decides the run on tensors *)

Lemma fmap_Raise_inv {A B : Type} (f : A -> B) (r : res A) (e : exn) :
  f <$> r = Raise e <-> r = Raise e.
Proof.
  destruct r as [a|e']; cbn; split; intros Hr; try discriminate; congruence.
Qed.

Lemma fmap_returns {A B : Type} (f : A -> B) (r : res A) :
  (exists b, f <$> r = Ok b) <-> (exists a, r = Ok a).
Proof.
  destruct r as [a|e]; cbn; split; intros [c Hc]; try discriminate; eauto.
Qed.

(** ** ResidualBlock and ScalePrediction: when they return, what they raise *)



(** X3. A [ResidualBlock] whose [num_repeats] is zero or negative stores no
    layer, and its [forward] returns its input as it is, whatever the input. *)
Theorem ResidualBlock_forward_no_repeat {T : Type} {torch : Torch T}
    (channels n : Z) (use_residual : bool) (x : T) :
  n <= 0 ->
  ResidualBlock.layers (ResidualBlock.__init__ channels use_residual n) = []
  /\ ResidualBlock.forward (ResidualBlock.__init__ channels use_residual n) x = Ok x.
Proof.
  intros Hn.
  assert (Hl : ResidualBlock.layers (ResidualBlock.__init__ channels use_residual n) = []).
  { rewrite ResidualBlock_layers. replace (Z.to_nat n) with 0%nat by lia. reflexivity. }
  split; [exact Hl|]. unfold ResidualBlock.forward. rewrite Hl. reflexivity.
Qed.

Lemma ResidualBlock_forward_no_repeat_witness :
  ResidualBlock.forward (ResidualBlock.__init__ 64 true (-3)) [7; 5] = Ok [7; 5].
Proof.
  apply (ResidualBlock_forward_no_repeat (T:=list Z) 64 (-3) true [7; 5]). lia.
Defined.



(** ** The layers of [model_config] on any 4-D shape *)

Lemma conv_dim_halve (h : Z) : 0 < h -> conv_dim 3 2 1 h (halve h).
Proof. intros Hh. unfold conv_dim, halve. lia. Qed.

Lemma halve_pos (h : Z) : 0 < h -> 0 < halve h.
Proof. intros Hh. unfold halve. Z.div_mod_to_equations. lia. Qed.

Lemma fits_halve (h : Z) :
  fits h <->
  0 < h
  /\ halve (halve (halve (halve h))) = halve (halve (halve (halve (halve h)))) * 2
  /\ halve (halve (halve h)) = halve (halve (halve (halve h))) * 2.
Proof.
  unfold fits, halve. split; intros; Z.div_mod_to_equations; lia.
Qed.

Lemma fits_multiple (h : Z) : 0 < h -> fits (32 * h).
Proof.
  intros Hh. unfold fits. split; [lia|]. left.
  rewrite Z.mul_comm. apply Z_mod_mult.
Qed.

Lemma loop_cnn_fail (cin cout : Z) (bn_act : bool) (kw : nn.kwargs) (n c h w : Z)
    (outs rc : list (list Z)) (ls : list Layer) :
  ~ (0 < h /\ 0 < w) ->
  YOLOv3.forward_loop (LCNNBlock (CNNBlock.__init__ cin cout bn_act kw) :: ls)
    (YOLOv3.mkLocals [n; c; h; w] outs rc)
  = Raise RuntimeError.
Proof.
  intros Hneg. unfold YOLOv3.forward_loop.
  cbn [for_each YOLOv3.forward_body call_layer YOLOv3.x].
  assert (Hconv : shapes.conv2d (nn.Conv2d_init cin cout (negb bn_act) kw) [n; c; h; w]
                  = Raise RuntimeError).
  { unfold shapes.conv2d, shapes.conv_axis_ok.
    destruct (Z.ltb_spec 0 h) as [Hh|Hh]; destruct (Z.ltb_spec 0 w) as [Hw|Hw];
      try (exfalso; apply Hneg; split; assumption);
      rewrite ?andb_false_r, ?andb_false_l; cbn [andb]; rewrite ?andb_false_r; reflexivity. }
  unfold CNNBlock.forward, CNNBlock.__init__.
  cbn [CNNBlock.use_bn_act CNNBlock.conv conv2d shape_torch].
  rewrite Hconv. destruct bn_act; reflexivity.
Qed.

Lemma loop_scale_fail (cs nc n c h w : Z) (outs rc : list (list Z)) (ls : list Layer) :
  c = cs -> n < 0 -> 0 < h -> 0 < w ->
  YOLOv3.forward_loop (LScalePrediction (ScalePrediction.__init__ cs nc) :: ls)
    (YOLOv3.mkLocals [n; c; h; w] outs rc)
  = Raise RuntimeError.
Proof.
  intros -> Hn Hh Hw. unfold YOLOv3.forward_loop.
  cbn [for_each YOLOv3.forward_body call_layer YOLOv3.x].
  destruct (ScalePrediction.forward (ScalePrediction.__init__ cs nc) [n; cs; h; w])
    as [y|e] eqn:Hfwd.
  - apply ScalePrediction_forward_inv in Hfwd as (n' & h' & w' & [= <- <- <-] & Hn' & _).
    lia.
  - apply ScalePrediction_forward_raise in Hfwd as ->. reflexivity.
Qed.

Lemma loop_upsample_fail (n c h w c2 h2 w2 : Z) (outs rc : list (list Z)) (ls : list Layer) :
  ~ (h2 = h * 2 /\ w2 = w * 2) ->
  YOLOv3.forward_loop (LUpsample (nn.mkUpsample 2) :: ls)
    (YOLOv3.mkLocals [n; c; h; w] outs (rc ++ [[n; c2; h2; w2]]))
  = Raise RuntimeError.
Proof.
  intros Hne. unfold YOLOv3.forward_loop. cbn [for_each].
  rewrite forward_body_upsample.
  cbn [interpolate shape_torch shapes.interpolate length map nn.scale_factor].
  rewrite bool_decide_eq_true_2 by lia.
  cbn [mbind res_bind cat shape_torch shapes.cat length Z.of_nat Pos.of_succ_nat Pos.succ
       Z.ltb Z.leb Z.compare Pos.compare Pos.compare_cont orb for_each].
  unfold shapes.cat2. change (Z.to_nat 1) with 1%nat.
  cbn [lookup list_lookup length take drop].
  rewrite (bool_decide_eq_false_2 ([h * 2; w * 2] = [h2; w2])).
  - rewrite andb_false_r. reflexivity.
  - intros [= <- <-]. apply Hne. split; reflexivity.
Qed.

Lemma loop_cnn_bad_input (cin cout : Z) (kw : nn.kwargs) (s : list Z)
    (outs rc : list (list Z)) (ls : list Layer) :
  (forall n h w, s <> [n; cin; h; w]) ->
  YOLOv3.forward_loop (LCNNBlock (CNNBlock.__init__ cin cout true kw) :: ls)
    (YOLOv3.mkLocals s outs rc)
  = Raise RuntimeError.
Proof.
  intros Hs. unfold YOLOv3.forward_loop.
  cbn [for_each YOLOv3.forward_body call_layer YOLOv3.x].
  destruct (CNNBlock.forward (CNNBlock.__init__ cin cout true kw) s) as [y|e] eqn:Hfwd.
  - apply CNNBlock_forward_inv in Hfwd as (n & h & w & -> & _).
    exfalso. apply (Hs n h w). reflexivity.
  - apply CNNBlock_forward_raise in Hfwd as ->. reflexivity.
Qed.

Ltac halves := repeat apply halve_pos; assumption.

Ltac conv_dims_any :=
  first [ apply conv_dim_halve | apply conv_dim_k3_s1 | apply conv_dim_k1 ]; halves.

Ltac loop_step_any :=
  first
    [ erewrite loop_cnn; [ | reflexivity | conv_dims_any | conv_dims_any ]
    | rewrite loop_residual by (reflexivity || halves); cbn [Z.eqb Pos.eqb]
    | rewrite loop_scale by (reflexivity || assumption || halves) ].

(** The loop on an input of shape [(N, in_channels, H, W)]: it returns when
    [N >= 0] and [H] and [W] fit, with outputs at strides 32, 16 and 8, and
    raises [RuntimeError] otherwise. *)
Lemma forward_loop_decide (in_channels num_classes N H W : Z) :
  0 <= num_classes ->
  YOLOv3.forward_loop (YOLOv3._create_conv_layers in_channels num_classes)
    (YOLOv3.mkLocals [N; in_channels; H; W] [] [])
  = if bool_decide (0 <= N /\ fits H /\ fits W)
    then Ok (YOLOv3.mkLocals [N; 128; halve (halve (halve H)); halve (halve (halve W))]
               [[N; 3; halve (halve (halve (halve (halve H))));
                 halve (halve (halve (halve (halve W)))); num_classes + 5];
                [N; 3; halve (halve (halve (halve H)));
                 halve (halve (halve (halve W))); num_classes + 5];
                [N; 3; halve (halve (halve H)); halve (halve (halve W)); num_classes + 5]]
               [])
    else Raise RuntimeError.
Proof.
  intros Hnc. rewrite create_conv_layers_eq.
  destruct (decide (0 < H /\ 0 < W)) as [[HH HW]|Hneg].
  2:{ rewrite loop_cnn_fail by exact Hneg.
      rewrite bool_decide_eq_false_2; [reflexivity|]. unfold fits. tauto. }
  do 15 loop_step_any.
  destruct (decide (0 <= N)) as [HN|HN].
  2:{ rewrite loop_scale_fail by (reflexivity || lia || halves).
      rewrite bool_decide_eq_false_2; [reflexivity|]. tauto. }
  do 2 loop_step_any.
  destruct (decide (halve (halve (halve (halve H)))
                    = halve (halve (halve (halve (halve H)))) * 2
                    /\ halve (halve (halve (halve W)))
                       = halve (halve (halve (halve (halve W)))) * 2))
    as [[Eh4 Ew4]|Hne].
  2:{ rewrite loop_upsample_fail by exact Hne.
      rewrite bool_decide_eq_false_2; [reflexivity|].
      rewrite !fits_halve. tauto. }
  erewrite loop_upsample; [|exact Eh4|exact Ew4].
  do 6 loop_step_any.
  destruct (decide (halve (halve (halve H)) = halve (halve (halve (halve H))) * 2
                    /\ halve (halve (halve W)) = halve (halve (halve (halve W))) * 2))
    as [[Eh3 Ew3]|Hne].
  2:{ rewrite loop_upsample_fail by exact Hne.
      rewrite bool_decide_eq_false_2; [reflexivity|].
      rewrite !fits_halve. tauto. }
  erewrite loop_upsample; [|exact Eh3|exact Ew3].
  do 5 loop_step_any.
  rewrite bool_decide_eq_true_2; [reflexivity|].
  rewrite !fits_halve. tauto.
Qed.

Lemma halve_ceil (h : Z) :
  0 < h ->
  halve (halve (halve h)) = (h + 7) / 8
  /\ halve (halve (halve (halve h))) = (h + 15) / 16
  /\ halve (halve (halve (halve (halve h)))) = (h + 31) / 32.
Proof.
  intros Hh. unfold halve. repeat split; Z.div_mod_to_equations; lia.
Qed.

(** The loop on any shape: it returns on the shapes [(N, in_channels, H, W)]
    with [N >= 0] and fitting [H] and [W], and raises [RuntimeError] on all
    others. *)
Lemma forward_loop_cases (in_channels num_classes : Z) (s : list Z) :
  0 <= num_classes ->
  (exists N H W,
     s = [N; in_channels; H; W] /\ 0 <= N /\ fits H /\ fits W
     /\ YOLOv3.forward_loop (YOLOv3._create_conv_layers in_channels num_classes)
          (YOLOv3.mkLocals s [] [])
        = Ok (YOLOv3.mkLocals [N; 128; (H + 7) / 8; (W + 7) / 8]
                [[N; 3; (H + 31) / 32; (W + 31) / 32; num_classes + 5];
                 [N; 3; (H + 15) / 16; (W + 15) / 16; num_classes + 5];
                 [N; 3; (H + 7) / 8; (W + 7) / 8; num_classes + 5]]
                []))
  \/ ((forall N H W, ~ (s = [N; in_channels; H; W] /\ 0 <= N /\ fits H /\ fits W))
      /\ YOLOv3.forward_loop (YOLOv3._create_conv_layers in_channels num_classes)
           (YOLOv3.mkLocals s [] [])
         = Raise RuntimeError).
Proof.
  intros Hnc.
  assert (Hbad : (forall n h w, s <> [n; in_channels; h; w]) ->
    (forall N H W, ~ (s = [N; in_channels; H; W] /\ 0 <= N /\ fits H /\ fits W))
    /\ YOLOv3.forward_loop (YOLOv3._create_conv_layers in_channels num_classes)
         (YOLOv3.mkLocals s [] [])
       = Raise RuntimeError).
  { intros Hs. split.
    - intros N H W (Heq & _). apply (Hs N H W Heq).
    - rewrite create_conv_layers_eq. apply loop_cnn_bad_input. exact Hs. }
  destruct s as [|N [|C [|H [|W [|d s]]]]]; try (right; apply Hbad; discriminate).
  destruct (decide (C = in_channels)) as [->|HC].
  2:{ right. apply Hbad. intros n h w [= _ Heq _ _]. contradiction. }
  rewrite forward_loop_decide by exact Hnc.
  destruct (bool_decide _) eqn:Hd.
  - apply bool_decide_eq_true in Hd as (HN & HH & HW). left. exists N, H, W.
    destruct (halve_ceil H (proj1 HH)) as (-> & -> & ->).
    destruct (halve_ceil W (proj1 HW)) as (-> & -> & ->).
    split; [reflexivity|]. split; [exact HN|]. split; [exact HH|].
    split; [exact HW|reflexivity].
  - apply bool_decide_eq_false in Hd. right. split; [|reflexivity].
    intros N' H' W' ([= <- <- <-] & Hrest). contradiction.
Qed.

(** ** YOLOv3.forward: the inputs it accepts *)



(** ** YOLOv3.forward over any list of layers *)

Lemma res_fmap_compose {A B C : Type} (f : A -> B) (g : B -> C) (r : res A) :
  g <$> (f <$> r) = (g ∘ f) <$> r.
Proof. destruct r; reflexivity. Qed.



(** X7. For any list of layers and any tensors, a [forward] that returns
    gives as many outputs as there are [ScalePrediction] layers; the i-th
    output is what the i-th of them returned. *)
Theorem forward_outputs_per_head {T : Type} {torch : Torch T} {Loader : Type}
    (self : YOLOv3.t T Loader) (x : T) (outs : list T) :
  YOLOv3.forward self x = Ok outs ->
  length outs = length (scale_heads (YOLOv3.layers self))
  /\ Forall2 head_output (scale_heads (YOLOv3.layers self)) outs.
Proof.
  intros (st' & Hrun & <-)%fmap_Ok_inv.
  apply forward_loop_heads in Hrun as (os & -> & Hos). cbn [YOLOv3.outputs app].
  split; [|exact Hos]. symmetry. apply (Forall2_length _ _ _ Hos).
Qed.

Lemma forward_outputs_per_head_witness :
  length [[2; 3; 13; 13; 25]; [2; 3; 26; 26; 25]; [2; 3; 52; 52; 25]]
  = length (scale_heads (YOLOv3.layers (Example.model 0 true))).
Proof.
  apply (forward_outputs_per_head (T:=list Z) (Example.model 0 true) [2; 3; 416; 416]).
  vm_compute. reflexivity.
Defined.

(** X8. For any list of layers in which some [nn.Upsample] comes when no
    route connection is stored, [forward] returns on no input: it raises at
    that layer ([IndexError] from [route_connections[-1]]) or before. *)
Theorem forward_without_route_raises {T : Type} {torch : Torch T} {Loader : Type}
    (self : YOLOv3.t T Loader) (x : T) :
  route_depth (YOLOv3.layers self) 0 = None ->
  exists e, YOLOv3.forward self x = Raise e.
Proof.
  intros Hdepth. unfold YOLOv3.forward.
  destruct (YOLOv3.forward_loop (YOLOv3.layers self) (YOLOv3.mkLocals x [] []))
    as [st'|e] eqn:Hrun.
  - apply forward_loop_depth in Hrun. cbn [YOLOv3.route_connections length] in Hrun.
    rewrite Hdepth in Hrun. discriminate.
  - exists e. reflexivity.
Qed.

Lemma forward_without_route_raises_witness :
  exists e,
    YOLOv3.forward
      (YOLOv3.mk 20 3 [LUpsample (nn.mkUpsample 2)] Example.config [3; 3; 2]
         YoloLoss_init "train" "test" 0)
      [2; 3; 416; 416]
    = Raise e.
Proof.
  apply (forward_without_route_raises (T:=list Z)
           (YOLOv3.mk 20 3 [LUpsample (nn.mkUpsample 2)] Example.config [3; 3; 2]
              YoloLoss_init "train" "test" 0)).
  reflexivity.
Defined.

(** ** _create_conv_layers over any configuration list *)

Lemma create_conv_layers_body_app (num_classes : Z) (layers : list Layer) (c : Z)
    (e : config_entry) :
  exists new,
    (YOLOv3.create_conv_layers_body num_classes (layers, c) e).1 = layers ++ new
    /\ length new = entry_layers e
    /\ length (scale_heads new) = (if is_scale_entry e then 1 else 0)%nat
    /\ length (List.filter is_upsample new) = (if is_upsample_entry e then 1 else 0)%nat.
Proof.
  destruct e as [f k s|tag r|s]; cbn [YOLOv3.create_conv_layers_body entry_layers
    is_scale_entry is_upsample_entry].
  - eexists. split; [reflexivity|]. repeat split.
  - eexists. split; [reflexivity|]. repeat split.
  - destruct (String.eqb s "S"); [eexists; split; [reflexivity|]; repeat split|].
    destruct (String.eqb s "U"); [eexists; split; [reflexivity|]; repeat split|].
    exists []. rewrite app_nil_r. repeat split.
Qed.

(** X9. The loop of [_create_conv_layers], over any configuration list and
    from any layers already built: it keeps those layers and appends one
    layer per tuple, one per list entry, three per ["S"] (one of them a
    [ScalePrediction]), one [nn.Upsample] per ["U"], and nothing for any
    other string. *)
Theorem create_conv_layers_counts (num_classes : Z) (cfg : list config_entry)
    (layers : list Layer) (c : Z) :
  exists new,
    (foldl (YOLOv3.create_conv_layers_body num_classes) (layers, c) cfg).1 = layers ++ new
    /\ length new = sum_list (entry_layers <$> cfg)
    /\ length (scale_heads new) = length (List.filter is_scale_entry cfg)
    /\ length (List.filter is_upsample new) = length (List.filter is_upsample_entry cfg).
Proof.
  revert layers c. induction cfg as [|e cfg IH]; intros layers c.
  { exists []. rewrite app_nil_r. repeat split. }
  { cbn [foldl].
      destruct (create_conv_layers_body_app num_classes layers c e)
        as (new1 & Hnew1 & Hlen1 & Hheads1 & Hups1).
      destruct (YOLOv3.create_conv_layers_body num_classes (layers, c) e) as [layers1 c1].
      cbn [fst] in Hnew1. subst layers1.
      destruct (IH (layers ++ new1) c1) as (new2 & Hnew2 & Hlen2 & Hheads2 & Hups2).
      exists (new1 ++ new2). rewrite Hnew2, <- app_assoc. split; [reflexivity|].
      unfold scale_heads in *. rewrite omap_app, List.filter_app, !length_app.
      cbn [fmap list_fmap sum_list sum_list_with List.filter].
      rewrite Hlen1, Hlen2, Hheads1, Hheads2, Hups1, Hups2.
      split; [reflexivity|].
      split; [destruct (is_scale_entry e)|destruct (is_upsample_entry e)]; reflexivity. }
Qed.

(** ** Checkpoint names *)

Lemma string_length_app (a b : string) :
  String.length (a +:+ b) = (String.length a + String.length b)%nat.
Proof.
  induction a as [|ch a IH]; [reflexivity|].
  change (String ch a +:+ b) with (String ch (a +:+ b)).
  cbn [String.length]. rewrite IH. reflexivity.
Qed.

Lemma string_app_inj_r (a b s : string) : a +:+ s = b +:+ s -> a = b.
Proof.
  revert b. induction a as [|ch a IH]; intros [|ch' b] Heq.
  - reflexivity.
  - apply (f_equal String.length) in Heq.
    rewrite !string_length_app in Heq. cbn [String.length] in Heq. lia.
  - apply (f_equal String.length) in Heq.
    rewrite !string_length_app in Heq. cbn [String.length] in Heq. lia.
  - change (String ch (a +:+ s) = String ch' (b +:+ s)) in Heq.
    injection Heq as -> Heq. f_equal. apply IH. exact Heq.
Qed.

Section checkpoints.
Context {T : Type} {torch : Torch T} {Loader Boxes : Type}.

Implicit Types (self : YOLOv3.t T Loader).

Lemma training_epoch_end_saved self (model : YOLOv3.t T Loader) (filename : string) :
  YOLOv3.save_checkpoint model filename
    ∈ (YOLOv3.training_epoch_end (Boxes:=Boxes) self []).2 ->
  filename = "checkpoint_" +:+ pretty (YOLOv3.current_epoch self) +:+ ".pth.tar".
Proof.
  unfold YOLOv3.training_epoch_end.
  destruct (Config.SAVE_MODEL (YOLOv3.config self)); cbn.
  - intros [[= _ ->]|Hin]%elem_of_cons; [reflexivity|].
    apply list_elem_of_singleton in Hin. discriminate.
  - intros Hin. apply list_elem_of_singleton in Hin. discriminate.
Qed.

(** X10. Two epoch ends that save a checkpoint under the same file name are
    ends of the same epoch: checkpoints of different epochs never overwrite
    one another. *)
Theorem checkpoint_names_distinct self1 self2
    (model1 model2 : YOLOv3.t T Loader) (filename : string) :
  YOLOv3.save_checkpoint model1 filename
    ∈ (YOLOv3.training_epoch_end (Boxes:=Boxes) self1 []).2 ->
  YOLOv3.save_checkpoint model2 filename
    ∈ (YOLOv3.training_epoch_end (Boxes:=Boxes) self2 []).2 ->
  YOLOv3.current_epoch self1 = YOLOv3.current_epoch self2.
Proof.
  intros H1%training_epoch_end_saved H2%training_epoch_end_saved.
  rewrite H1 in H2. apply String.app_inj in H2. apply string_app_inj_r in H2.
  apply (inj pretty) in H2. exact H2.
Qed.

End checkpoints.

Lemma checkpoint_names_distinct_witness :
  YOLOv3.current_epoch (Example.model 7 true) = YOLOv3.current_epoch (Example.model 7 true).
Proof.
  assert (Hin : YOLOv3.save_checkpoint (Example.model 7 true) "checkpoint_7.pth.tar"
                  ∈ (YOLOv3.training_epoch_end (Boxes:=unit) (Example.model 7 true) []).2).
  { apply list_elem_of_here. }
  apply (checkpoint_names_distinct (Boxes:=unit)
           (Example.model 7 true) (Example.model 7 true)
           (Example.model 7 true) (Example.model 7 true) "checkpoint_7.pth.tar" Hin Hin).
Defined.

(** ** CNNBlock *)



(** ** Repeats of a ResidualBlock, and batches that are too short *)



(** X13. A batch with fewer than three targets makes [training_step] raise
    [IndexError] at the reading of the targets, before [forward] is run;
    nothing is logged. *)
Theorem training_step_short_batch
    {T : Type} {torch : Torch T} {Loader Boxes : Type}
    {extern : YOLOv3.Extern T Loader Boxes}
    (self : YOLOv3.t T Loader) (x : T) (y : list T) (batch_idx : Z)
    (w : list (YOLOv3.event T Loader Boxes)) :
  (length y < 3)%nat ->
  YOLOv3.training_step self (x, y) batch_idx w = (Raise IndexError, w).
Proof.
  intros Hy. unfold YOLOv3.training_step.
  destruct y as [|y0 [|y1 [|y2 y]]]; [reflexivity..|cbn [length] in Hy; lia].
Qed.

Lemma training_step_short_batch_witness :
  YOLOv3.training_step (Example.model 0 true)
    ([2; 3; 416; 416], [[2; 3; 13; 13; 6]; [2; 3; 26; 26; 6]]) 0 []
  = (Raise IndexError, []).
Proof.
  apply (training_step_short_batch (T:=list Z) (Example.model 0 true)). cbn. lia.
Defined.
